(** * SOLIS space habitat designer: the session logic of [script.js]

    A shallow embedding of the class [SpaceHabitatDesigner]: the geometry
    metrics ([updateHabitatInfo]), the circular placement of system markers
    ([autoLayout], [clearSystems], [getEnabledSystems]) and the saving and
    loading of a layout ([saveLayout], [loadLayout], [loadLayoutData]).

    Conventions of the model.
    - A JavaScript number is a real number or NaN ([number]); the rounding
      of IEEE doubles and the infinities are outside the model.
    - The fields of the class and the part of the page the methods read and
      write (the check boxes, the four read-outs) make up a [session]; of
      the 3D scene, what the theme and the shell touch is kept apart, in a
      [Workspace].
    - A method is a computation [M A]: it runs from a session and either
      returns or throws, and in both cases leaves a session behind, since a
      JavaScript exception does not undo the assignments made before it. *)

From Stdlib Require Import Reals Lra Lia List String Ascii Bool ZArith.
From Stdlib Require Import Machin Zfloor Permutation.
Import ListNotations.

Local Open Scope string_scope.
Local Open Scope R_scope.

(** ** JavaScript values and numbers *)

#[local] Set Warnings "-register-all".

Inductive value : Type :=
| VUndefined
| VNull
| VBool (b : bool)
| VNum (r : R)
| VStr (s : string)
| VArr (elems : list value)
| VObj (props : list (string * value)).

(** [Some r] is the number [r]; [None] is NaN. *)
Definition number : Type := option R.
Definition NaN : number := None.
Definition Num (r : R) : number := Some r.

Definition lift2 (op : R -> R -> R) (a b : number) : number :=
  match a, b with
  | Some x, Some y => Some (op x y)
  | _, _ => NaN
  end.

Definition nmul : number -> number -> number := lift2 Rmult.
Definition nadd : number -> number -> number := lift2 Rplus.
Definition nsub : number -> number -> number := lift2 Rminus.

(** Division by a divisor known to be a non-zero real: the program divides
    by 20, by 3 and by the length of a list it has checked to be non-empty. *)
Definition ndiv (a : number) (d : R) : number := option_map (fun x => x / d) a.

Declare Scope js_scope.
Delimit Scope js_scope with js.
Infix "*" := nmul : js_scope.
Infix "+" := nadd : js_scope.
Infix "-" := nsub : js_scope.
Infix "/" := ndiv : js_scope.

(** [Math.floor] and [Math.round] (nearest integer, a tie going up);
    [None] is NaN. *)
Definition Math_floor (a : number) : option Z := option_map Zfloor a.
Definition Math_round (a : number) : option Z :=
  option_map (fun x => Zfloor (x + / 2)) a.

(** ** Placed systems *)

Record Vector3 : Type := mkVector3 { vx : number; vy : number; vz : number }.

(** What [createSystem] returns, as far as the layout is concerned: the
    group's [userData.type] and the position of its mesh. *)
Record PlacedSystem : Type := mkPlaced { kind : string; position : Vector3 }.

Definition createSystem (systemType : string) (pos : Vector3) : PlacedSystem :=
  {| kind := systemType; position := pos |}.

(** ** The session *)

Record session : Type := mkSession {
  currentShape : value;
  currentRadius : value;
  currentHeight : value;
  systems : list PlacedSystem;
  (** [document.getElementById(id).checked] *)
  checkboxes : string -> bool;
  (** the read-outs [systems-count], [volume-display], [surface-display]
      and [crew-display] *)
  systems_count : nat;
  volume_display : option Z;
  surface_display : option Z;
  crew_display : option Z;
  (** the messages shown with [alert], the latest first *)
  alerts : list string;
  (** how many times [Math.random] has been called *)
  draws : nat
}.

Definition set_currentShape (v : value) (s : session) : session :=
  mkSession v (currentRadius s) (currentHeight s) (systems s) (checkboxes s)
    (systems_count s) (volume_display s) (surface_display s) (crew_display s)
    (alerts s) (draws s).

Definition set_currentRadius (v : value) (s : session) : session :=
  mkSession (currentShape s) v (currentHeight s) (systems s) (checkboxes s)
    (systems_count s) (volume_display s) (surface_display s) (crew_display s)
    (alerts s) (draws s).

Definition set_currentHeight (v : value) (s : session) : session :=
  mkSession (currentShape s) (currentRadius s) v (systems s) (checkboxes s)
    (systems_count s) (volume_display s) (surface_display s) (crew_display s)
    (alerts s) (draws s).

Definition set_systems (l : list PlacedSystem) (s : session) : session :=
  mkSession (currentShape s) (currentRadius s) (currentHeight s) l
    (checkboxes s) (systems_count s) (volume_display s) (surface_display s)
    (crew_display s) (alerts s) (draws s).

Definition set_checkboxes (c : string -> bool) (s : session) : session :=
  mkSession (currentShape s) (currentRadius s) (currentHeight s) (systems s)
    c (systems_count s) (volume_display s) (surface_display s)
    (crew_display s) (alerts s) (draws s).

Definition set_systems_count (n : nat) (s : session) : session :=
  mkSession (currentShape s) (currentRadius s) (currentHeight s) (systems s)
    (checkboxes s) n (volume_display s) (surface_display s) (crew_display s)
    (alerts s) (draws s).

Definition set_displays (vol surf crew : option Z) (s : session) : session :=
  mkSession (currentShape s) (currentRadius s) (currentHeight s) (systems s)
    (checkboxes s) (systems_count s) vol surf crew (alerts s) (draws s).

Definition set_alerts (l : list string) (s : session) : session :=
  mkSession (currentShape s) (currentRadius s) (currentHeight s) (systems s)
    (checkboxes s) (systems_count s) (volume_display s) (surface_display s)
    (crew_display s) l (draws s).

Definition set_draws (n : nat) (s : session) : session :=
  mkSession (currentShape s) (currentRadius s) (currentHeight s) (systems s)
    (checkboxes s) (systems_count s) (volume_display s) (surface_display s)
    (crew_display s) (alerts s) n.

(** ** Computations that may throw *)

Inductive error : Type :=
| SyntaxError (message : string)
| TypeError (message : string).

Definition message (e : error) : string :=
  match e with SyntaxError m => m | TypeError m => m end.

Inductive outcome (A : Type) : Type :=
| Returned (a : A) (s : session)
| Thrown (e : error) (s : session).
Arguments Returned {A} a s.
Arguments Thrown {A} e s.

Definition M (A : Type) : Type := session -> outcome A.

Definition ret {A} (a : A) : M A := fun s => Returned a s.

Definition bind {A B} (c : M A) (k : A -> M B) : M B :=
  fun s => match c s with
           | Returned a s' => k a s'
           | Thrown e s' => Thrown e s'
           end.

Definition throw {A} (e : error) : M A := fun s => Thrown e s.

(** [try { body } catch (error) { handler }] *)
Definition try_catch (body : M unit) (handler : error -> M unit) : M unit :=
  fun s => match body s with
           | Returned a s' => Returned a s'
           | Thrown e s' => handler e s'
           end.

Definition get : M session := fun s => Returned s s.
Definition modify (f : session -> session) : M unit := fun s => Returned tt (f s).

Declare Scope M_scope.
Delimit Scope M_scope with M.
Notation "x <- c1 ;; c2" := (bind c1 (fun x => c2))
  (at level 61, c1 at next level, right associativity) : M_scope.
Notation "c1 ;; c2" := (bind c1 (fun _ => c2))
  (at level 61, right associativity) : M_scope.
Local Open Scope M_scope.

(** [array.forEach((element, index) => ...)] *)
Fixpoint forEach_from {A} (l : list A) (callback : A -> nat -> M unit)
    (index : nat) : M unit :=
  match l with
  | [] => ret tt
  | a :: rest => callback a index ;; forEach_from rest callback (S index)
  end.

Definition forEach {A} (l : list A) (callback : A -> nat -> M unit) : M unit :=
  forEach_from l callback 0.

Definition alert (msg : string) : M unit :=
  modify (fun s => set_alerts (msg :: alerts s) s).

(** ** The runtime's part

    [JSON.parse] and [JSON.stringify] belong to the JavaScript runtime. A
    text is represented by what [JSON.parse] makes of it: the value it
    denotes, or no value at all, in which case [JSON.parse] throws a
    [SyntaxError] (the wording of its message is the engine's; the model
    fixes one). [JSON.stringify] writes a text that denotes what it keeps of
    the value. *)

Inductive text : Type :=
| JsonText (denotes : value)
| OtherText (raw : string).

Definition JSON_parse (t : text) : M value :=
  match t with
  | JsonText v => ret v
  | OtherText raw => throw (SyntaxError ("Unexpected token in JSON: " ++ raw))
  end.

(** What [JSON.stringify] keeps of a value: a property whose value is
    [undefined] is left out, and [undefined] inside an array is written
    [null]. *)
Fixpoint jsonify (v : value) : value :=
  match v with
  | VArr elems =>
      VArr (map (fun e => match e with
                          | VUndefined => VNull
                          | _ => jsonify e
                          end) elems)
  | VObj props =>
      VObj ((fix keep (ps : list (string * value)) : list (string * value) :=
               match ps with
               | [] => []
               | (_, VUndefined) :: rest => keep rest
               | (k, e) :: rest => (k, jsonify e) :: keep rest
               end) props)
  | _ => v
  end.

Definition JSON_stringify (v : value) : text := JsonText (jsonify v).

Fixpoint lookup (name : string) (props : list (string * value)) : option value :=
  match props with
  | [] => None
  | (k, v) :: rest => if String.eqb k name then Some v else lookup name rest
  end.

(** [object.name], for the names [shape], [radius], [height] and [systems]:
    reading a property of [null] or [undefined] throws, an object gives the
    property or [undefined], and no primitive or array has such a property. *)
Definition get_prop (object : value) (name : string) : M value :=
  match object with
  | VUndefined =>
      throw (TypeError ("Cannot read properties of undefined (reading '" ++ name ++ "')"))
  | VNull =>
      throw (TypeError ("Cannot read properties of null (reading '" ++ name ++ "')"))
  | VObj props =>
      ret (match lookup name props with Some v => v | None => VUndefined end)
  | _ => ret VUndefined
  end.

Fixpoint is_substring (needle hay : string) : bool :=
  prefix needle hay
  || match hay with
     | EmptyString => false
     | String _ rest => is_substring needle rest
     end.

(** [container.includes(id)] for a string [id]: [Array.prototype.includes]
    on an array, [String.prototype.includes] on a string; anything else has
    no method [includes], and calling it throws. *)
Definition includes (container : value) (id : string) : M bool :=
  match container with
  | VArr elems =>
      ret (existsb (fun e => match e with
                             | VStr s => String.eqb s id
                             | _ => false
                             end) elems)
  | VStr s => ret (is_substring id s)
  | VUndefined =>
      throw (TypeError "Cannot read properties of undefined (reading 'includes')")
  | VNull =>
      throw (TypeError "Cannot read properties of null (reading 'includes')")
  | _ => throw (TypeError "layout.systems.includes is not a function")
  end.

(** Whether turning a value into the string of a form control throws. An
    object read from JSON throws when it has a property [toString] of its
    own: that property is no function, and [valueOf] then gives no
    primitive either. An array throws when one of its elements other than
    [null] does, since its [toString] joins the strings of its elements.
    Nothing else throws. *)
Fixpoint ToString_throws (v : value) : bool :=
  match v with
  | VObj props =>
      match lookup "toString" props with
      | Some _ => true
      | None => false
      end
  | VArr elems =>
      existsb (fun e => match e with
                        | VUndefined | VNull => false
                        | _ => ToString_throws e
                        end) elems
  | _ => false
  end.

(** [control.value = v] and [control.textContent = v]: the control's new
    text is not kept, the conversion that may throw is. *)
Definition set_control (v : value) : M unit :=
  if ToString_throws v
  then throw (TypeError "Cannot convert object to primitive value")
  else ret tt.

(** ** The class [SpaceHabitatDesigner] *)

Definition systemIds : list string :=
  [ "life-support"; "power"; "waste"; "thermal"; "communications";
    "medical"; "sleep"; "exercise"; "food"; "stowage" ].

(** [v === label], as the [switch] on the shape compares. *)
Definition strict_eq (v : value) (label : string) : bool :=
  match v with
  | VStr s => String.eqb s label
  | _ => false
  end.

(** Whether the [switch] on the shape has a case for [v]. *)
Definition has_case (v : value) : bool :=
  strict_eq v "cylinder" || strict_eq v "sphere" || strict_eq v "cube"
  || strict_eq v "torus".

(** [document.getElementById(id).checked = b] *)
Definition check (id : string) (b : bool) : M unit :=
  modify (fun s =>
    set_checkboxes (fun k => if String.eqb k id then b else checkboxes s k) s).

(** ** Concrete runtimes and pages

    A runtime whose [Math.random] always returns 0.25 and which turns every
    string, array and object into NaN; a page with the boxes [power] and
    [medical] checked, one with [power] alone, and one with none. *)

Definition quarter : nat -> R := fun _ => / 4.

Definition no_coercion : value -> number := fun _ => NaN.

Definition power_medical : string -> bool :=
  fun id => String.eqb id "power" || String.eqb id "medical".

Definition power_only : string -> bool := fun id => String.eqb id "power".

Definition none_checked : string -> bool := fun _ => false.

Section Designer.

(** The runtime's [Math.random]: [Math_random k] is what its call number [k]
    returns. *)
Variable Math_random : nat -> R.

(** The runtime's conversion to a number of a string, an array or an
    object. *)
Variable coerce : value -> number.

Definition ToNumber (v : value) : number :=
  match v with
  | VUndefined => NaN
  | VNull => Num 0
  | VBool true => Num 1
  | VBool false => Num 0
  | VNum r => Num r
  | _ => coerce v
  end.

Definition Math_PI : number := Num PI.

Definition call_Math_random : M number :=
  fun s => Returned (Num (Math_random (draws s))) (set_draws (S (draws s)) s).

Definition updateSystemsCount : M unit :=
  modify (fun s => set_systems_count (List.length (systems s)) s).

Definition clearSystems : M unit :=
  modify (set_systems []) ;;
  updateSystemsCount.

Definition getEnabledSystems : M (list string) :=
  this <- get ;;
  ret (filter (checkboxes this) systemIds).

(** The [switch] of [updateHabitatInfo]: volume and surface area. The two
    variables start out [undefined], which reads as NaN where they are
    used. *)
Definition metrics (shape radius height : value) : number * number :=
  let currentRadius := ToNumber radius in
  let currentHeight := ToNumber height in
  if strict_eq shape "cylinder" then
    (Math_PI * currentRadius * currentRadius * currentHeight,
     Num 2 * Math_PI * currentRadius * currentHeight
     + Num 2 * Math_PI * currentRadius * currentRadius)%js
  else if strict_eq shape "sphere" then
    (Num (4 / 3) * Math_PI * currentRadius * currentRadius * currentRadius,
     Num 4 * Math_PI * currentRadius * currentRadius)%js
  else if strict_eq shape "cube" then
    (currentRadius * Num 2 * currentHeight * currentRadius * Num 2,
     Num 2 * (currentRadius * Num 2 * currentHeight
              + currentRadius * Num 2 * currentRadius * Num 2
              + currentHeight * currentRadius * Num 2))%js
  else if strict_eq shape "torus" then
    let R := currentRadius in
    let r := (currentRadius * Num 0.3)%js in
    (Num 2 * Math_PI * Math_PI * R * r * r,
     Num 4 * Math_PI * Math_PI * R * r)%js
  else (NaN, NaN).

Definition updateHabitatInfo : M unit :=
  this <- get ;;
  let (volume, surfaceArea) :=
    metrics (currentShape this) (currentRadius this) (currentHeight this) in
  let crewCapacity := Math_floor (volume / 20)%js in
  modify (set_displays (Math_round volume) (Math_round surfaceArea) crewCapacity).

(** Of [createHabitat] the model keeps what can stop it and the call of
    [updateHabitatInfo] that ends it; the rest builds the mesh of the shell.
    When the shape matches no case of the [switch], the geometry stays
    [undefined] and [new THREE.WireframeGeometry(geometry)] throws on
    reading it (as three.js r128 does), before [updateHabitatInfo] is
    reached. *)
Definition createHabitat : M unit :=
  this <- get ;;
  if has_case (currentShape this) then updateHabitatInfo
  else throw (TypeError
                "Cannot read properties of undefined (reading 'isGeometry')").

Definition autoLayout : M unit :=
  clearSystems ;;
  enabledSystems <- getEnabledSystems ;;
  if (List.length enabledSystems =? 0)%nat then ret tt else
  this <- get ;;
  let radius := (ToNumber (currentRadius this) * Num 0.8)%js in
  let height := (ToNumber (currentHeight this) * Num 0.8)%js in
  let angleStep := (2 * PI) / INR (List.length enabledSystems) in
  forEach enabledSystems (fun systemType index =>
    let angle := INR index * angleStep in
    let x := (Num (cos angle) * radius)%js in
    let z := (Num (sin angle) * radius)%js in
    U <- call_Math_random ;;
    let y := ((U - Num 0.5) * height * Num 0.5)%js in
    let system := createSystem systemType (mkVector3 x y z) in
    modify (fun s => set_systems (systems s ++ [system])%list s)) ;;
  updateSystemsCount.

(** The user ticks or unticks the check box [id]; its [change] listener
    calls [updateSystemsCount]. *)
Definition click (id : string) : M unit :=
  this <- get ;;
  check id (negb (checkboxes this id)) ;;
  updateSystemsCount.

(** [saveLayout] returns the text it offers for download; [now] is
    [new Date().toISOString()]. *)
Definition saveLayout (now : string) : M text :=
  this <- get ;;
  enabled <- getEnabledSystems ;;
  let layout := VObj [ ("shape", currentShape this);
                       ("radius", currentRadius this);
                       ("height", currentHeight this);
                       ("systems", VArr (map VStr enabled));
                       ("timestamp", VStr now) ] in
  ret (JSON_stringify layout).

(** The first five statements copy the fields into the form controls,
    whose texts the model does not keep; reading each field and turning it
    into the control's string are kept, as either may throw. *)
Definition loadLayoutData (layout : value) : M unit :=
  shape <- get_prop layout "shape" ;;
  set_control shape ;;
  radius <- get_prop layout "radius" ;;
  set_control radius ;;
  height <- get_prop layout "height" ;;
  set_control height ;;
  radius <- get_prop layout "radius" ;;
  set_control radius ;;
  height <- get_prop layout "height" ;;
  set_control height ;;
  shape <- get_prop layout "shape" ;;
  modify (set_currentShape shape) ;;
  radius <- get_prop layout "radius" ;;
  modify (set_currentRadius radius) ;;
  height <- get_prop layout "height" ;;
  modify (set_currentHeight height) ;;
  forEach systemIds (fun id _ =>
    layout_systems <- get_prop layout "systems" ;;
    b <- includes layout_systems id ;;
    check id b) ;;
  createHabitat ;;
  autoLayout.

(** The [onload] handler of [loadLayout], given the text of the chosen
    file. *)
Definition loadLayout (file : text) : M unit :=
  try_catch
    (layout <- JSON_parse file ;;
     loadLayoutData layout)
    (fun error => alert ("Error loading layout file: " ++ message error)).

(** The session a new designer starts from: the fields the constructor
    sets, on a page whose check boxes are [page_checked] and whose counter
    shows [page_count]; the constructor then calls [createHabitat]. *)
Definition page (page_checked : string -> bool) (page_count : nat) : session :=
  {| currentShape := VStr "cylinder";
     currentRadius := VNum 10;
     currentHeight := VNum 15;
     systems := [];
     checkboxes := page_checked;
     systems_count := page_count;
     volume_display := None;
     surface_display := None;
     crew_display := None;
     alerts := [];
     draws := 0 |}.

Definition constructor : M unit := createHabitat.

(** ** What a run of [autoLayout] leaves behind

    [placement] is the marker the callback of [autoLayout] builds at one
    index, [placements] the markers of a whole list, the draw number [d]
    being the first the list uses. *)

Definition placement (radius height : number) (angleStep U : R)
    (systemType : string) (index : nat) : PlacedSystem :=
  createSystem systemType
    (mkVector3 (Num (cos (INR index * angleStep)) * radius)%js
               ((Num U - Num 0.5) * height * Num 0.5)%js
               (Num (sin (INR index * angleStep)) * radius)%js).

Fixpoint placements (radius height : number) (angleStep : R)
    (l : list string) (index d : nat) : list PlacedSystem :=
  match l with
  | [] => []
  | systemType :: rest =>
      placement radius height angleStep (Math_random d) systemType index
      :: placements radius height angleStep rest (S index) (S d)
  end.

(** What [getEnabledSystems] returns in session [s]. *)
Definition enabled (s : session) : list string :=
  filter (checkboxes s) systemIds.

Definition autoLayout_result (s : session) : session :=
  match enabled s with
  | [] => set_systems_count 0 (set_systems [] s)
  | _ :: _ =>
      let n := List.length (enabled s) in
      set_systems_count n
        (set_draws (draws s + n)
           (set_systems
              (placements (ToNumber (currentRadius s) * Num 0.8)%js
                          (ToNumber (currentHeight s) * Num 0.8)%js
                          (2 * PI / INR n) (enabled s) 0 (draws s))
              s))
  end.

(** The four shapes of the [switch], with their labels. *)
Inductive HabitatShape : Type := Cylinder | Sphere | Cube | Torus.

Definition shape_name (shape : HabitatShape) : string :=
  match shape with
  | Cylinder => "cylinder"
  | Sphere => "sphere"
  | Cube => "cube"
  | Torus => "torus"
  end.


(** ** What the constructor and a load leave behind *)

Definition updateHabitatInfo_result (s : session) : session :=
  let m := metrics (currentShape s) (currentRadius s) (currentHeight s) in
  set_displays (Math_round (fst m)) (Math_round (snd m))
    (Math_floor (fst m / 20)%js) s.

(** The session a new designer leaves once its constructor has run. *)
Definition started (page_checked : string -> bool) (page_count : nat) : session :=
  updateHabitatInfo_result (page page_checked page_count).

Definition field (props : list (string * value)) (name : string) : value :=
  match lookup name props with
  | Some v => v
  | None => VUndefined
  end.

(** [elems.includes(id)] on an array. *)
Definition member (elems : list value) (id : string) : bool :=
  existsb (fun e => match e with
                    | VStr s => String.eqb s id
                    | _ => false
                    end) elems.

(** The check boxes once each box of [l] has been set to what [f] says. *)
Fixpoint checked_all (f : string -> bool) (l : list string)
    (c : string -> bool) : string -> bool :=
  match l with
  | [] => c
  | id :: rest =>
      checked_all f rest (fun k => if String.eqb k id then f id else c k)
  end.

(** What [loadLayoutData] leaves of an object whose [systems] is an array. *)
Definition loaded (props : list (string * value)) (elems : list value)
    (s : session) : session :=
  autoLayout_result
    (updateHabitatInfo_result
       (set_checkboxes (checked_all (member elems) systemIds (checkboxes s))
          (set_currentHeight (field props "height")
             (set_currentRadius (field props "radius")
                (set_currentShape (field props "shape") s))))).

(** The sphere of radius 12 and height 5 with [power] and [medical]
    enabled. *)
Definition sphere_session : session :=
  set_currentHeight (VNum 5)
    (set_currentRadius (VNum 12)
       (set_currentShape (VStr "sphere") (started power_medical 0))).

(** The fields of a document that [loadLayoutData] carries through: a
    shape the [switch] knows, and a radius and a height that a form control
    can take (any number, string, boolean or [null] is such). *)
Definition plain (props : list (string * value)) : Prop :=
  has_case (field props "shape") = true
  /\ ToString_throws (field props "radius") = false
  /\ ToString_throws (field props "height") = false.

(** ** The listeners of [setupEventListeners]

    A change of the shape selector (which offers the four shapes), a move
    of the radius or height slider (its value being one that [parseFloat]
    reads as the number given), the four buttons, a file handed to the load,
    and a change of a check box. *)

Definition on_shape_change (v : string) : M unit :=
  modify (set_currentShape (VStr v)) ;;
  createHabitat.

Definition on_radius_input (r : R) : M unit :=
  modify (set_currentRadius (VNum r)) ;;
  createHabitat.

Definition on_height_input (h : R) : M unit :=
  modify (set_currentHeight (VNum h)) ;;
  createHabitat.

Inductive event : Type :=
| ShapeChange (shape : HabitatShape)
| RadiusInput (r : R)
| HeightInput (h : R)
| AutoLayoutClick
| ClearLayoutClick
| SaveLayoutClick (now : string)
| LoadLayoutFile (file : text)
| CheckboxChange (id : string).

Definition listener (e : event) : M unit :=
  match e with
  | ShapeChange shape => on_shape_change (shape_name shape)
  | RadiusInput r => on_radius_input r
  | HeightInput h => on_height_input h
  | AutoLayoutClick => autoLayout
  | ClearLayoutClick => clearSystems
  | SaveLayoutClick now => saveLayout now ;; ret tt
  | LoadLayoutFile file => loadLayout file
  | CheckboxChange id => click id
  end.

(** The page dispatches an event to its listener. An exception the
    listener lets out is reported on the console, and the page goes on with
    the session as the listener left it. *)
Definition dispatch (e : event) (s : session) : list error * session :=
  match listener e s with
  | Returned _ s' => ([], s')
  | Thrown err s' => ([err], s')
  end.

(** A run of events: the errors reported on the console, in order, and the
    session at the end. *)
Fixpoint dispatch_all (es : list event) (s : session)
    : list error * session :=
  match es with
  | [] => ([], s)
  | e :: rest =>
      let (reported, s1) := dispatch e s in
      let (later, s') := dispatch_all rest s1 in
      ((reported ++ later)%list, s')
  end.

(** The counter shows the number of markers, and the markers are of
    distinct kinds among the ten known ones. *)
Definition consistent (s : session) : Prop :=
  systems_count s = List.length (systems s)
  /\ NoDup (map kind (systems s))
  /\ incl (map kind (systems s)) systemIds.

(** The three read-outs are those of the current shape, radius and
    height. *)
Definition in_step (s : session) : Prop :=
  let m := metrics (currentShape s) (currentRadius s) (currentHeight s) in
  volume_display s = Math_round (fst m)
  /\ surface_display s = Math_round (snd m)
  /\ crew_display s = Math_floor (fst m / 20)%js.

(** [layout.name] as [loadLayoutData] reads it from a value that is neither
    [null] nor [undefined]. *)
Definition own (layout : value) (name : string) : value :=
  match layout with
  | VObj props => field props name
  | _ => VUndefined
  end.

(** What [includes] tests on a container that has the method: membership
    in an array, occurrence in a string. *)
Definition includes_test (container : value) : option (string -> bool) :=
  match container with
  | VArr elems => Some (member elems)
  | VStr str => Some (fun id => is_substring id str)
  | _ => None
  end.

(** The documents whose [systems] [loadLayoutData] can test: not [null],
    with a [systems] that is an array or a string. *)
Definition loadable (layout : value) : bool :=
  match layout with
  | VUndefined | VNull => false
  | _ => match includes_test (own layout "systems") with
         | Some _ => true
         | None => false
         end
  end.

(** The documents whose [shape], [radius] and [height] the form controls
    can take. *)
Definition convertible (layout : value) : bool :=
  negb (ToString_throws (own layout "shape")
        || ToString_throws (own layout "radius")
        || ToString_throws (own layout "height")).

(** The session once [loadLayoutData] has assigned the three fields. *)
Definition assigned (layout : value) (s : session) : session :=
  set_currentHeight (own layout "height")
    (set_currentRadius (own layout "radius")
       (set_currentShape (own layout "shape") s)).

(** ** The workspace: scene, grid, lights and shell

    The objects of the 3D library are kept as plain records of what the
    methods give them. A field is [None] while the JavaScript field is
    [null]. *)

(** [new THREE.Color(hex)]; [None] is a colour built from [undefined]. *)
Definition Color : Type := option Z.

Record Palette : Type := mkPalette {
  background : Z;
  grid1 : Z;
  grid2 : Z;
  accent : Z;
  ambientIntensity : R;
  pointColor : Z
}.

Definition palettes : list (string * Palette) :=
  [ ("dark", mkPalette 0x0b1220 0x444444 0x222222 0x00d4ff 0.45 0x00d4ff);
    ("light", mkPalette 0xe9eef7 0xbcc7dd 0xd6deee 0x2563eb 0.6 0x22d3ee) ].

(** The names an object literal inherits from [Object.prototype]: reading
    one of them off [palettes] gives a function or an object, not a
    palette. *)
Definition Object_prototype : list string :=
  [ "constructor"; "hasOwnProperty"; "isPrototypeOf"; "propertyIsEnumerable";
    "toLocaleString"; "toString"; "valueOf"; "__defineGetter__";
    "__defineSetter__"; "__lookupGetter__"; "__lookupSetter__"; "__proto__" ].

Fixpoint assoc {A} (name : string) (table : list (string * A)) : option A :=
  match table with
  | [] => None
  | (k, a) :: rest => if String.eqb k name then Some a else assoc name rest
  end.

(** [palettes[theme] || palettes.dark]; [None] when what is read is an
    inherited member, whose fields all read [undefined]. *)
Definition choose_palette (theme : string) : option Palette :=
  match assoc theme palettes with
  | Some p => Some p
  | None =>
      if existsb (String.eqb theme) Object_prototype then None
      else assoc "dark" palettes
  end.

(** A [THREE.GridHelper]: its size, divisions and two colours, its height,
    and what has been assigned to its material since it was built (colour and
    [vertexColors]). *)
Record GridHelper : Type := mkGrid {
  grid_size : Z;
  grid_divisions : Z;
  grid_color1 : Z;
  grid_color2 : Z;
  grid_y : number;
  grid_material : option (Color * bool)
}.

Inductive Geometry : Type :=
| CylinderGeometry (radiusTop radiusBottom height : value) (radialSegments : Z)
| SphereGeometry (radius : value) (widthSegments heightSegments : Z)
| BoxGeometry (width : number) (height : value) (depth : number)
| TorusGeometry (radius : value) (tube : number)
    (radialSegments tubularSegments : Z).

(** The children of [habitatGroup]; the geometry is [None] when the
    [switch] matched no case. *)
Inductive Child : Type :=
| Mesh (geometry : option Geometry)
| LineSegments (geometry : option Geometry).

Record Workspace : Type := mkWorkspace {
  scene : option Color;            (* the scene, with its background *)
  gridHelper : option GridHelper;  (* also the grid the scene holds *)
  ambientLight : option (option R); (* its intensity *)
  pointLight : option Color;
  habitatGroup : list Child;
  habitatMaterial : option Color;
  wireframeMaterial : option Color
}.

Definition set_scene (c : option Color) (w : Workspace) : Workspace :=
  mkWorkspace c (gridHelper w) (ambientLight w) (pointLight w)
    (habitatGroup w) (habitatMaterial w) (wireframeMaterial w).

Definition set_gridHelper (g : option GridHelper) (w : Workspace) : Workspace :=
  mkWorkspace (scene w) g (ambientLight w) (pointLight w)
    (habitatGroup w) (habitatMaterial w) (wireframeMaterial w).

Definition set_ambientLight (a : option (option R)) (w : Workspace) : Workspace :=
  mkWorkspace (scene w) (gridHelper w) a (pointLight w)
    (habitatGroup w) (habitatMaterial w) (wireframeMaterial w).

Definition set_pointLight (c : option Color) (w : Workspace) : Workspace :=
  mkWorkspace (scene w) (gridHelper w) (ambientLight w) c
    (habitatGroup w) (habitatMaterial w) (wireframeMaterial w).

Definition set_habitat (children : list Child) (material wire : option Color)
    (w : Workspace) : Workspace :=
  mkWorkspace (scene w) (gridHelper w) (ambientLight w) (pointLight w)
    children material wire.

(** [addGrid]: without a scene, [this.scene.remove] or [this.scene.add]
    throws. *)
Definition addGrid (this : session) (w : Workspace) : error + Workspace :=
  match scene w with
  | None =>
      inl (TypeError
             (match gridHelper w with
              | Some _ => "Cannot read properties of null (reading 'remove')"
              | None => "Cannot read properties of null (reading 'add')"
              end))
  | Some _ =>
      inr (set_gridHelper
             (Some (mkGrid 100 20 0x444444 0x222222
                      (option_map Ropp (ToNumber (currentHeight this)) / 2)%js
                      None))
             w)
  end.

Definition getCurrentTheme (data_theme : option string) : string :=
  match data_theme with
  | Some attr => if String.eqb attr "dark" then "dark" else "light"
  | None => "light"
  end.

Definition guarded {A} (field : option A) (update : Workspace -> Workspace)
    (w : Workspace) : Workspace :=
  match field with
  | Some _ => update w
  | None => w
  end.

Definition applyThemeToWorkspace (theme : string) (this : session)
    (w : Workspace) : error + Workspace :=
  let p := choose_palette theme in
  let w := guarded (scene w) (set_scene (Some (option_map background p))) w in
  match
    match gridHelper w with
    | Some g =>
        addGrid this
          (set_gridHelper
             (Some (mkGrid (grid_size g) (grid_divisions g) (grid_color1 g)
                      (grid_color2 g) (grid_y g)
                      (Some (option_map grid1 p, false))))
             w)
    | None => inr w
    end
  with
  | inl e => inl e
  | inr w =>
      let w := guarded (ambientLight w)
                 (set_ambientLight (Some (option_map ambientIntensity p))) w in
      let w := guarded (pointLight w)
                 (set_pointLight (Some (option_map pointColor p))) w in
      let w := guarded (habitatMaterial w)
                 (fun w => set_habitat (habitatGroup w)
                             (Some (option_map accent p))
                             (wireframeMaterial w) w) w in
      let w := guarded (wireframeMaterial w)
                 (fun w => set_habitat (habitatGroup w) (habitatMaterial w)
                             (Some (option_map accent p)) w) w in
      inr w
  end.

(** The [switch] of [createHabitat]. *)
Definition habitat_geometry (this : session) : option Geometry :=
  if strict_eq (currentShape this) "cylinder" then
    Some (CylinderGeometry (currentRadius this) (currentRadius this)
            (currentHeight this) 32)
  else if strict_eq (currentShape this) "sphere" then
    Some (SphereGeometry (currentRadius this) 32 32)
  else if strict_eq (currentShape this) "cube" then
    Some (BoxGeometry (ToNumber (currentRadius this) * Num 2)%js
            (currentHeight this)
            (ToNumber (currentRadius this) * Num 2)%js)
  else if strict_eq (currentShape this) "torus" then
    Some (TorusGeometry (currentRadius this)
            (ToNumber (currentRadius this) * Num 0.3)%js 16 100)
  else None.

(** The part of [createHabitat] that builds the shell; [data_theme] is the
    attribute of the page that [getCurrentTheme] reads. The call of
    [updateHabitatInfo] that ends the method is the [createHabitat] of the
    session. With a shape that matches no case the geometry stays undefined
    and [THREE.WireframeGeometry] throws, before anything is added to the
    group. *)
Definition createHabitat_scene (data_theme : option string) (this : session)
    (w : Workspace) : error + Workspace :=
  let geometry := habitat_geometry this in
  match geometry with
  | None =>
      inl (TypeError
             "Cannot read properties of undefined (reading 'isGeometry')")
  | Some _ =>
      let w := set_habitat [Mesh geometry; LineSegments geometry]
                 (Some (Some 0x00d4ff%Z)) (Some (Some 0x00d4ff%Z)) w in
      applyThemeToWorkspace (getCurrentTheme data_theme) this w
  end.

(** The workspace [init] builds (with [setupLighting] and [addGrid]). *)
Definition init (this : session) : error + Workspace :=
  addGrid this
    (mkWorkspace (Some (Some 0x0c0c0c%Z)) None (Some (Some 0.4))
       (Some (Some 0x00d4ff%Z)) [] None None).



(** ** Colours of the markers, views, shortcuts and the theme toggle *)

(** The table [systemColors] of [createSystem]. *)
Definition systemColors : list (string * Z) :=
  [ ("life-support", 0xff6b6b%Z); ("power", 0xffd93d%Z); ("waste", 0x6bcf7f%Z);
    ("thermal", 0x4d96ff%Z); ("communications", 0x9b59b6%Z);
    ("medical", 0xe74c3c%Z); ("sleep", 0x3498db%Z); ("exercise", 0xf39c12%Z);
    ("food", 0x1abc9c%Z); ("stowage", 0x95a5a6%Z) ].

(** The camera: where it is and the point [lookAt] last turned it to. *)
Record Camera : Type := mkCamera {
  camera_position : R * R * R;
  camera_lookAt : option (R * R * R)
}.

Definition setView (viewType : string) (camera : Camera) : Camera :=
  let distance := 50 in
  if String.eqb viewType "top" then
    mkCamera (0, distance, 0) (Some (0, 0, 0))
  else if String.eqb viewType "side" then
    mkCamera (distance, 0, 0) (Some (0, 0, 0))
  else if String.eqb viewType "front" then
    mkCamera (0, 0, distance) (Some (0, 0, 0))
  else if String.eqb viewType "reset" then
    mkCamera (30, 30, 30) (Some (0, 0, 0))
  else camera.

(** The view types [setView] has a case for. *)
Definition known_view (viewType : string) : bool :=
  existsb (String.eqb viewType) ["top"; "side"; "front"; "reset"].

(** The [keydown] listener: the button it clicks, if any. *)
Definition keydown (key : string) (ctrlKey : bool) : option string :=
  if String.eqb key "a" then
    if ctrlKey then Some "auto-layout" else None
  else if String.eqb key "c" then
    if ctrlKey then Some "clear-layout" else None
  else if String.eqb key "s" then
    if ctrlKey then Some "save-layout" else None
  else if String.eqb key "l" then
    if ctrlKey then Some "load-layout" else None
  else None.

(** The table [shortcuts] the tooltips are made from. *)
Definition shortcuts : list (string * string) :=
  [ ("auto-layout", "Ctrl+A"); ("clear-layout", "Ctrl+C");
    ("save-layout", "Ctrl+S"); ("load-layout", "Ctrl+L") ].

(** The upper-case form of a key made of ASCII letters. *)
Definition upper_ascii (c : ascii) : ascii :=
  let n := nat_of_ascii c in
  if ((97 <=? n) && (n <=? 122))%nat then ascii_of_nat (n - 32) else c.

Fixpoint upper (key : string) : string :=
  match key with
  | EmptyString => EmptyString
  | String c rest => String (upper_ascii c) (upper rest)
  end.

(** The page as far as the theme goes: the attribute [data-theme] of the
    document, the entry [shd-theme] of the local storage, and the text of
    the toggle button ([None]: the page has no such button). *)
Record ThemePage : Type := mkThemePage {
  data_theme : option string;
  shd_theme : option string;
  toggle_text : option string
}.

Definition setToggleLabel (theme : string) (pg : ThemePage) : ThemePage :=
  match toggle_text pg with
  | None => pg
  | Some _ =>
      mkThemePage (data_theme pg) (shd_theme pg)
        (Some (if String.eqb theme "dark" then "🌙 Dark" else "☀️ Light"))
  end.

(** The theme bootstrap at [DOMContentLoaded]; [prefersDark] is what the
    media query answers. An empty saved theme counts as none. *)
Definition bootstrap_theme (prefersDark : bool) (pg : ThemePage) : ThemePage :=
  let initialTheme :=
    match shd_theme pg with
    | Some saved =>
        if String.eqb saved "" then (if prefersDark then "dark" else "light")
        else saved
    | None => if prefersDark then "dark" else "light"
    end in
  setToggleLabel initialTheme
    (mkThemePage (Some initialTheme) (shd_theme pg) (toggle_text pg)).

(** The theme the toggle goes to. *)
Definition next_theme (pg : ThemePage) : string :=
  let current := getCurrentTheme (data_theme pg) in
  if String.eqb current "dark" then "light" else "dark".

(** The [themechange] listener of the designer; [detail_theme] is the
    [theme] of the event's detail, if it carries one ([e.detail &&
    e.detail.theme], where an empty string counts as none). *)
Definition on_themechange (detail_theme data_theme : option string)
    (this : session) (w : Workspace) : error + Workspace :=
  let theme :=
    match detail_theme with
    | Some t => if String.eqb t "" then getCurrentTheme data_theme else t
    | None => getCurrentTheme data_theme
    end in
  applyThemeToWorkspace theme this w.

(** A click on the toggle (its listener works out the current theme with
    the same test as [getCurrentTheme]): the page afterwards, and the
    workspace once the [themechange] event it dispatches has been handled. *)
Definition toggle_click (this : session) (pg : ThemePage) (w : Workspace)
    : ThemePage * (error + Workspace) :=
  let next := next_theme pg in
  (setToggleLabel next (mkThemePage (Some next) (Some next) (toggle_text pg)),
   on_themechange (Some next) (Some next) this w).

(** A workspace as [init] leaves it for a height of 15. *)
Definition studio : Workspace :=
  mkWorkspace (Some (Some 0x0c0c0c%Z))
    (Some (mkGrid 100 20 0x444444 0x222222 (Num (- 15 / 2)) None))
    (Some (Some 0.4)) (Some (Some 0x00d4ff%Z)) [] None None.

(** ** Lemmas on the placement loop *)

Lemma bind_run {A B} (c : M A) (k : A -> M B) s a s' :
  c s = Returned a s' -> bind c k s = k a s'.
Proof. unfold bind; now intros ->. Qed.

Lemma placements_length radius height step l index d :
  List.length (placements radius height step l index d) = List.length l.
Proof.
  revert index d; induction l as [|k l IH]; intros index d; simpl.
  - reflexivity.
  - now rewrite IH.
Qed.

Lemma placements_kinds radius height step l index d :
  map kind (placements radius height step l index d) = l.
Proof.
  revert index d; induction l as [|k l IH]; intros index d; simpl.
  - reflexivity.
  - now rewrite IH.
Qed.

Lemma placements_nth radius height step l index d i systemType :
  nth_error l i = Some systemType ->
  nth_error (placements radius height step l index d) i
  = Some (placement radius height step (Math_random (d + i)) systemType
            (index + i)).
Proof.
  revert index d i; induction l as [|k l IH]; intros index d [|i] H;
    simpl in *; try discriminate.
  - injection H as ->. now rewrite !Nat.add_0_r.
  - rewrite (IH _ _ _ H). now rewrite !Nat.add_succ_r.
Qed.

Lemma forEach_placements radius height step l index s :
  forEach_from l (fun systemType index =>
    let angle := INR index * step in
    let x := (Num (cos angle) * radius)%js in
    let z := (Num (sin angle) * radius)%js in
    U <- call_Math_random ;;
    let y := ((U - Num 0.5) * height * Num 0.5)%js in
    let system := createSystem systemType (mkVector3 x y z) in
    modify (fun s => set_systems (systems s ++ [system])%list s)) index s
  = Returned tt
      (set_draws (draws s + List.length l)
         (set_systems
            (systems s ++ placements radius height step l index (draws s))%list
            s)).
Proof.
  revert index s; induction l as [|k l IH]; intros index s.
  - simpl. unfold ret, set_draws, set_systems; simpl.
    rewrite app_nil_r, Nat.add_0_r. now destruct s.
  - simpl. unfold bind at 1. unfold bind at 1.
    unfold call_Math_random at 1. unfold modify at 1.
    rewrite IH. unfold set_draws, set_systems, placement; simpl.
    rewrite <- app_assoc. simpl. now rewrite Nat.add_succ_r.
Qed.

Lemma autoLayout_run s : autoLayout s = Returned tt (autoLayout_result s).
Proof.
  unfold autoLayout, autoLayout_result.
  rewrite (bind_run clearSystems _ s tt (set_systems_count 0 (set_systems [] s)))
    by reflexivity.
  rewrite (bind_run getEnabledSystems _ _ (enabled s) _) by reflexivity.
  destruct (enabled s) as [|k l] eqn:E.
  - reflexivity.
  - cbn [List.length Nat.eqb].
    rewrite (bind_run get _ _ _ _) by reflexivity.
    cbn [currentRadius currentHeight set_systems set_systems_count].
    unfold forEach.
    rewrite (bind_run _ _ _ _ _ (forEach_placements _ _ _ _ _ _)).
    unfold updateSystemsCount, modify, set_systems_count, set_draws,
      set_systems.
    cbn [currentShape currentRadius currentHeight systems checkboxes
         systems_count volume_display surface_display crew_display alerts
         draws app].
    rewrite placements_length. reflexivity.
Qed.

Lemma radial_distance angle rho :
  sqrt ((cos angle * rho) * (cos angle * rho)
        + (sin angle * rho) * (sin angle * rho)) = Rabs rho.
Proof.
  replace ((cos angle * rho) * (cos angle * rho)
           + (sin angle * rho) * (sin angle * rho))
    with (Rsqr rho).
  - apply sqrt_Rsqr_abs.
  - pose proof (sin2_cos2 angle) as H. unfold Rsqr in *.
    replace (rho * rho) with ((sin angle * sin angle + cos angle * cos angle)
                              * (rho * rho)) by (rewrite H; ring).
    ring.
Qed.

(** ** Auto-layout *)

(** C1. With N > 0 systems enabled, [autoLayout] leaves exactly N markers, in
    the order of the enabled systems; the marker at index i is of the kind
    of the i-th enabled system and its position has
    x = cos(i * 2 pi / N) * (0.8 * radius), z = sin(i * 2 pi / N) * (0.8 *
    radius) and y = (U - 0.5) * (0.8 * height) * 0.5 for U the i-th draw
    of [Math.random] the layout makes, which lies in [0, 1). Its distance
    from the axis in the x-z plane is |0.8 * radius|, which is 0.8 * radius
    for the radius of a habitat (a non-negative number). *)
Theorem autoLayout_circle (s : session) (radius height : R) :
  currentRadius s = VNum radius ->
  currentHeight s = VNum height ->
  (forall k, 0 <= Math_random k < 1) ->
  enabled s <> [] ->
  exists s',
    autoLayout s = Returned tt s'
    /\ List.length (systems s') = List.length (enabled s)
    /\ forall i, (i < List.length (enabled s))%nat ->
       exists p systemType U x y z,
         nth_error (enabled s) i = Some systemType
         /\ nth_error (systems s') i = Some p
         /\ kind p = systemType
         /\ vx (position p) = Num x
         /\ vy (position p) = Num y
         /\ vz (position p) = Num z
         /\ U = Math_random (draws s + i)
         /\ 0 <= U < 1
         /\ x = cos (INR i * (2 * PI / INR (List.length (enabled s))))
                * (0.8 * radius)
         /\ z = sin (INR i * (2 * PI / INR (List.length (enabled s))))
                * (0.8 * radius)
         /\ y = (U - 0.5) * (0.8 * height) * 0.5
         /\ sqrt (x * x + z * z) = Rabs (0.8 * radius)
         /\ (0 <= radius -> sqrt (x * x + z * z) = 0.8 * radius).
Proof.
  intros Hr Hh Hrand Hne.
  exists (autoLayout_result s). split; [apply autoLayout_run|].
  unfold autoLayout_result.
  destruct (enabled s) as [|k0 l0] eqn:E; [contradiction|].
  rewrite <- E. cbn [systems set_systems_count set_draws set_systems].
  split; [apply placements_length|].
  intros i Hi.
  destruct (nth_error (enabled s) i) as [systemType|] eqn:Hnth;
    [|apply nth_error_None in Hnth; lia].
  set (angle := INR i * (2 * PI / INR (List.length (enabled s)))).
  exists (placement (ToNumber (currentRadius s) * Num 0.8)%js
            (ToNumber (currentHeight s) * Num 0.8)%js
            (2 * PI / INR (List.length (enabled s)))
            (Math_random (draws s + i)) systemType i),
    systemType, (Math_random (draws s + i)),
    (cos angle * (0.8 * radius)),
    ((Math_random (draws s + i) - 0.5) * (0.8 * height) * 0.5),
    (sin angle * (0.8 * radius)).
  split; [reflexivity|].
  split; [exact (placements_nth _ _ _ _ _ _ _ _ Hnth)|].
  split; [reflexivity|].
  unfold placement. rewrite Hr, Hh.
  cbn [ToNumber createSystem position vx vy vz].
  unfold Num, nmul, nsub, lift2. fold angle.
  split; [f_equal; ring|]. split; [f_equal; ring|]. split; [f_equal; ring|].
  split; [reflexivity|]. split; [apply Hrand|].
  repeat split.
  - apply radial_distance.
  - intros Hpos. rewrite radial_distance. apply Rabs_pos_eq. lra.
Qed.

Lemma getEnabledSystems_run s : getEnabledSystems s = Returned (enabled s) s.
Proof. reflexivity. Qed.

Lemma autoLayout_systems s :
  systems (autoLayout_result s)
  = placements (ToNumber (currentRadius s) * Num 0.8)%js
               (ToNumber (currentHeight s) * Num 0.8)%js
               (2 * PI / INR (List.length (enabled s))) (enabled s) 0 (draws s).
Proof.
  unfold autoLayout_result. now destruct (enabled s).
Qed.

Lemma autoLayout_count s :
  systems_count (autoLayout_result s) = List.length (enabled s).
Proof.
  unfold autoLayout_result. now destruct (enabled s).
Qed.

Lemma placements_In radius height step l index d p :
  In p (placements radius height step l index d) ->
  exists i systemType,
    p = placement radius height step (Math_random (d + i)) systemType
          (index + i).
Proof.
  intros [i Hi]%In_nth_error.
  destruct (nth_error l i) as [systemType|] eqn:Hl.
  - rewrite (placements_nth _ _ _ _ _ _ _ _ Hl) in Hi.
    injection Hi as <-. now exists i, systemType.
  - apply nth_error_None in Hl.
    assert (nth_error (placements radius height step l index d) i = None) as H
      by (apply nth_error_None; now rewrite placements_length).
    congruence.
Qed.

(** C8. [autoLayout] returns from every session, whatever its fields hold
    and whatever the runtime draws: it cannot throw. With no system enabled
    it leaves no marker at all (and shows the count 0). *)
Theorem autoLayout_total (s : session) :
  exists s',
    autoLayout s = Returned tt s'
    /\ (enabled s = [] -> systems s' = [] /\ systems_count s' = 0%nat).
Proof.
  exists (autoLayout_result s). split; [apply autoLayout_run|].
  intros E. rewrite autoLayout_systems, autoLayout_count, E. now split.
Qed.

(** C10. For a habitat of height h > 0 and draws of [Math.random] in [0, 1),
    every marker [autoLayout] places has -0.2 h <= y < 0.2 h, so it lies
    strictly inside the vertical extent [-h/2, h/2] of the habitat. *)
Theorem autoLayout_vertical_bounds (s : session) (h : R) :
  currentHeight s = VNum h ->
  0 < h ->
  (forall k, 0 <= Math_random k < 1) ->
  exists s',
    autoLayout s = Returned tt s'
    /\ forall p, In p (systems s') ->
       exists y, vy (position p) = Num y
                 /\ - 0.2 * h <= y < 0.2 * h
                 /\ - (h / 2) < y < h / 2.
Proof.
  intros Hh Hpos Hrand.
  exists (autoLayout_result s). split; [apply autoLayout_run|].
  intros p Hp. rewrite autoLayout_systems in Hp.
  apply placements_In in Hp as (i & systemType & ->).
  rewrite Hh. cbn [ToNumber placement createSystem position vy].
  unfold Num, nmul, nsub, lift2.
  eexists; split; [reflexivity|].
  pose proof (Hrand (draws s + i)%nat) as [H0 H1].
  split; split; nra.
Qed.

(** ** Clearing *)

Lemma clearSystems_run s :
  clearSystems s = Returned tt (set_systems_count 0 (set_systems [] s)).
Proof. reflexivity. Qed.

(** C6, as the code has it. [autoLayout] clears by itself: it runs
    [clearSystems] first, so a layout started from a session and one started
    from the cleared session are the same run, and afterwards the stored
    markers are those of the systems now enabled and no others. The clear
    operation empties the stored markers and sets the shown count to 0. *)
Theorem autoLayout_clears_first (s : session) :
  (exists c,
     clearSystems s = Returned tt c
     /\ systems c = [] /\ systems_count c = 0%nat
     /\ autoLayout c = autoLayout s)
  /\ (exists s',
        autoLayout s = Returned tt s'
        /\ map kind (systems s') = enabled s
        /\ systems_count s' = List.length (enabled s)).
Proof.
  split.
  - exists (set_systems_count 0 (set_systems [] s)).
    repeat split; reflexivity.
  - exists (autoLayout_result s). split; [apply autoLayout_run|].
    rewrite autoLayout_systems, autoLayout_count, placements_kinds. now split.
Qed.

(** ** Check boxes and the order of placement *)




(** ** Geometry metrics *)

Lemma PI_lower : 3141 / 1000 < PI.
Proof.
  pose proof (PI_2_3_7_ineq 2) as [H _].
  unfold PI_2_3_7_tg, tg_alt, Ratan_seq in H. simpl in H. lra.
Qed.

Lemma PI_upper : PI < 31416 / 10000.
Proof.
  pose proof (PI_2_3_7_ineq 2) as [_ H].
  unfold PI_2_3_7_tg, tg_alt, Ratan_seq in H. simpl in H. lra.
Qed.

Lemma metrics_shape (shape : HabitatShape) (r h : R) :
  metrics (VStr (shape_name shape)) (VNum r) (VNum h)
  = match shape with
    | Cylinder => (Num (PI * r * r * h), Num (2 * PI * r * h + 2 * PI * r * r))
    | Sphere => (Num (4 / 3 * PI * r * r * r), Num (4 * PI * r * r))
    | Cube => (Num (r * 2 * h * r * 2),
               Num (2 * (r * 2 * h + r * 2 * r * 2 + h * r * 2)))
    | Torus => (Num (2 * PI * PI * r * (r * 0.3) * (r * 0.3)),
                Num (4 * PI * PI * r * (r * 0.3)))
    end.
Proof. destruct shape; reflexivity. Qed.

(** C2. Volume and surface area of the four shapes, for every radius r
    and height h (positive or not): cylinder pi r^2 h and
    2 pi r h + 2 pi r^2; sphere (4/3) pi r^3 and 4 pi r^2; cube
    (2r) h (2r) and 2 [(2r) h + (2r)(2r) + h (2r)]; torus, with minor radius
    r' = 0.3 r, 2 pi^2 r r'^2 and 4 pi^2 r r'. *)
Theorem metrics_formulas (r h : R) :
  metrics (VStr "cylinder") (VNum r) (VNum h)
  = (Num (PI * r ^ 2 * h), Num (2 * PI * r * h + 2 * PI * r ^ 2))
  /\ metrics (VStr "sphere") (VNum r) (VNum h)
     = (Num (4 / 3 * PI * r ^ 3), Num (4 * PI * r ^ 2))
  /\ metrics (VStr "cube") (VNum r) (VNum h)
     = (Num ((2 * r) * h * (2 * r)),
        Num (2 * ((2 * r) * h + (2 * r) * (2 * r) + h * (2 * r))))
  /\ (let r' := 0.3 * r in
      metrics (VStr "torus") (VNum r) (VNum h)
      = (Num (2 * PI ^ 2 * r * r' ^ 2), Num (4 * PI ^ 2 * r * r'))).
Proof.
  repeat split.
  - rewrite (metrics_shape Cylinder). f_equal; f_equal; ring.
  - rewrite (metrics_shape Sphere). f_equal; f_equal; field.
  - rewrite (metrics_shape Cube). f_equal; f_equal; ring.
  - cbv zeta. rewrite (metrics_shape Torus). f_equal; f_equal; field.
Qed.

Lemma updateHabitatInfo_run s :
  updateHabitatInfo s = Returned tt (updateHabitatInfo_result s).
Proof.
  unfold updateHabitatInfo, updateHabitatInfo_result.
  rewrite (bind_run get _ s s s) by reflexivity.
  now destruct (metrics (currentShape s) (currentRadius s) (currentHeight s)).
Qed.

(** C3. For each of the four shapes and every radius and height, the crew
    capacity shown is floor(volume / 20), volume being the volume
    [metrics] computes for the shape, and volume and surface area are shown
    rounded to the nearest integer. For the cylinder of radius 10 and
    height 15 the read-outs are 235 crew, volume 4712 and surface 1571. *)
Theorem crewCapacity_floor (s : session) (shape : HabitatShape) (r h : R) :
  currentShape s = VStr (shape_name shape) ->
  currentRadius s = VNum r ->
  currentHeight s = VNum h ->
  exists volume surfaceArea s',
    metrics (VStr (shape_name shape)) (VNum r) (VNum h)
    = (Num volume, Num surfaceArea)
    /\ updateHabitatInfo s = Returned tt s'
    /\ crew_display s' = Some (Zfloor (volume / 20))
    /\ volume_display s' = Some (Zfloor (volume + / 2))
    /\ surface_display s' = Some (Zfloor (surfaceArea + / 2))
    /\ (shape = Cylinder -> r = 10 -> h = 15 ->
        crew_display s' = Some 235%Z
        /\ volume_display s' = Some 4712%Z
        /\ surface_display s' = Some 1571%Z).
Proof.
  intros Hs Hr Hh.
  assert (exists volume surfaceArea,
             metrics (VStr (shape_name shape)) (VNum r) (VNum h)
             = (Num volume, Num surfaceArea)) as (volume & surfaceArea & Hm).
  { rewrite metrics_shape. destruct shape; eauto. }
  exists volume, surfaceArea. eexists.
  split; [exact Hm|].
  split; [apply updateHabitatInfo_run|].
  unfold updateHabitatInfo_result. rewrite Hs, Hr, Hh, Hm.
  cbn [fst snd crew_display volume_display surface_display set_displays
       Math_floor Math_round ndiv option_map Num].
  repeat (split; [reflexivity|]).
  intros -> -> ->. rewrite (metrics_shape Cylinder) in Hm.
  injection Hm as <- <-.
  pose proof PI_lower. pose proof PI_upper.
  repeat split; f_equal; apply Zfloor_eq; lra.
Qed.

(** ** Saving and loading *)

Lemma constructor_run page_checked page_count :
  constructor (page page_checked page_count)
  = Returned tt (started page_checked page_count).
Proof. apply updateHabitatInfo_run. Qed.

Lemma checked_all_spec f l c k :
  checked_all f l c k = if existsb (String.eqb k) l then f k else c k.
Proof.
  revert c; induction l as [|id l IH]; intros c; cbn [checked_all existsb].
  - reflexivity.
  - rewrite IH. destruct (String.eqb_spec k id) as [->|_].
    + now destruct (existsb (String.eqb id) l).
    + reflexivity.
Qed.

Lemma existsb_eqb_In k l : existsb (String.eqb k) l = true <-> In k l.
Proof.
  rewrite existsb_exists. split.
  - intros (x & Hin & ->%String.eqb_eq). exact Hin.
  - intros Hin. exists k. split; [exact Hin|apply String.eqb_refl].
Qed.

Lemma member_In elems id : member elems id = true <-> In (VStr id) elems.
Proof.
  unfold member. rewrite existsb_exists. split.
  - intros (x & Hin & Hx). destruct x; try discriminate.
    apply String.eqb_eq in Hx. now subst.
  - intros Hin. exists (VStr id). split; [exact Hin|apply String.eqb_refl].
Qed.

Lemma forEach_check props elems l index s :
  lookup "systems" props = Some (VArr elems) ->
  forEach_from l (fun id _ =>
    layout_systems <- get_prop (VObj props) "systems" ;;
    b <- includes layout_systems id ;;
    check id b) index s
  = Returned tt
      (set_checkboxes (checked_all (member elems) l (checkboxes s)) s).
Proof.
  intros Hsys. revert index s; induction l as [|id l IH]; intros index s.
  - cbn [forEach_from checked_all]. unfold ret. now destruct s.
  - cbn [forEach_from checked_all].
    rewrite (bind_run _ _ s tt
               (set_checkboxes
                  (fun k => if String.eqb k id then member elems id
                            else checkboxes s k) s)).
    + rewrite IH. reflexivity.
    + unfold get_prop. rewrite Hsys. reflexivity.
Qed.

Lemma set_control_run v s :
  ToString_throws v = false -> set_control v s = Returned tt s.
Proof. unfold set_control. now intros ->. Qed.

Lemma createHabitat_run s :
  has_case (currentShape s) = true ->
  createHabitat s = Returned tt (updateHabitatInfo_result s).
Proof.
  intros H. unfold createHabitat.
  rewrite (bind_run get _ s s s eq_refl), H. apply updateHabitatInfo_run.
Qed.

Lemma has_case_name shape : has_case (VStr (shape_name shape)) = true.
Proof. now destruct shape. Qed.

Lemma has_case_converts v : has_case v = true -> ToString_throws v = false.
Proof. now destruct v. Qed.

Lemma loadLayoutData_run props elems s :
  plain props ->
  lookup "systems" props = Some (VArr elems) ->
  loadLayoutData (VObj props) s = Returned tt (loaded props elems s).
Proof.
  intros (Hshape & Hr & Hh) Hsys. unfold loadLayoutData, forEach.
  pose proof (has_case_converts _ Hshape) as Hs.
  rewrite (bind_run (get_prop (VObj props) "shape") _ s
             (field props "shape") s eq_refl).
  rewrite (bind_run _ _ _ _ _ (set_control_run _ _ Hs)).
  do 2 (rewrite (bind_run (get_prop (VObj props) "radius") _ s
                   (field props "radius") s eq_refl);
        rewrite (bind_run _ _ _ _ _ (set_control_run _ _ Hr));
        rewrite (bind_run (get_prop (VObj props) "height") _ s
                   (field props "height") s eq_refl);
        rewrite (bind_run _ _ _ _ _ (set_control_run _ _ Hh))).
  rewrite (bind_run (get_prop (VObj props) "shape") _ s
             (field props "shape") s eq_refl).
  rewrite (bind_run (modify _) _ _ tt _ eq_refl).
  rewrite (bind_run (get_prop (VObj props) "radius") _ _
             (field props "radius") _ eq_refl).
  rewrite (bind_run (modify _) _ _ tt _ eq_refl).
  rewrite (bind_run (get_prop (VObj props) "height") _ _
             (field props "height") _ eq_refl).
  rewrite (bind_run (modify _) _ _ tt _ eq_refl).
  rewrite (bind_run _ _ _ _ _ (forEach_check _ _ _ _ _ Hsys)).
  erewrite (bind_run createHabitat);
    [|apply createHabitat_run; exact Hshape].
  rewrite autoLayout_run. reflexivity.
Qed.

Lemma autoLayout_frame s :
  currentShape (autoLayout_result s) = currentShape s
  /\ currentRadius (autoLayout_result s) = currentRadius s
  /\ currentHeight (autoLayout_result s) = currentHeight s
  /\ checkboxes (autoLayout_result s) = checkboxes s
  /\ alerts (autoLayout_result s) = alerts s.
Proof.
  unfold autoLayout_result. now destruct (enabled s).
Qed.

Lemma loaded_fields props elems s :
  currentShape (loaded props elems s) = field props "shape"
  /\ currentRadius (loaded props elems s) = field props "radius"
  /\ currentHeight (loaded props elems s) = field props "height"
  /\ checkboxes (loaded props elems s)
     = checked_all (member elems) systemIds (checkboxes s)
  /\ alerts (loaded props elems s) = alerts s.
Proof.
  unfold loaded.
  destruct (autoLayout_frame
              (updateHabitatInfo_result
                 (set_checkboxes
                    (checked_all (member elems) systemIds (checkboxes s))
                    (set_currentHeight (field props "height")
                       (set_currentRadius (field props "radius")
                          (set_currentShape (field props "shape") s))))))
    as (-> & -> & -> & -> & ->).
  now repeat split.
Qed.

Lemma loaded_enabled props elems s id :
  In id (enabled (loaded props elems s))
  <-> In id systemIds /\ In (VStr id) elems.
Proof.
  unfold enabled. rewrite filter_In.
  destruct (loaded_fields props elems s) as (_ & _ & _ & -> & _).
  rewrite checked_all_spec. split.
  - intros [Hin H]. split; [exact Hin|].
    apply existsb_eqb_In in Hin. rewrite Hin in H. now apply member_In.
  - intros [Hin H]. split; [exact Hin|].
    apply existsb_eqb_In in Hin. rewrite Hin. now apply member_In.
Qed.

Lemma load_fields_of props elems s :
  plain props ->
  lookup "systems" props = Some (VArr elems) ->
  loadLayout (JsonText (VObj props)) s = Returned tt (loaded props elems s)
  /\ currentShape (loaded props elems s) = field props "shape"
  /\ currentRadius (loaded props elems s) = field props "radius"
  /\ currentHeight (loaded props elems s) = field props "height"
  /\ checkboxes (loaded props elems s)
     = checked_all (member elems) systemIds (checkboxes s)
  /\ alerts (loaded props elems s) = alerts s.
Proof.
  intros Hplain Hsys. split; [|apply loaded_fields].
  unfold loadLayout, try_catch.
  rewrite (bind_run (JSON_parse _) _ s (VObj props) s) by reflexivity.
  now rewrite (loadLayoutData_run _ _ _ Hplain Hsys).
Qed.

(** C9. Loading a layout document (a shape among the four, a radius and a
    height that the form controls can take, as numbers are) whose [systems]
    is an array raises no error, whatever the array lists: each of the ten
    known boxes is checked exactly when the array holds its identifier, so
    the enabled systems are the intersection of the array with the ten
    known identifiers, and anything else in the array is ignored. *)
Theorem load_ignores_unknown_systems (props : list (string * value))
    (elems : list value) (shape : HabitatShape) (s : session) :
  lookup "shape" props = Some (VStr (shape_name shape)) ->
  ToString_throws (field props "radius") = false ->
  ToString_throws (field props "height") = false ->
  lookup "systems" props = Some (VArr elems) ->
  exists s',
    loadLayout (JsonText (VObj props)) s = Returned tt s'
    /\ alerts s' = alerts s
    /\ forall id, In id (enabled s') <-> In id systemIds /\ In (VStr id) elems.
Proof.
  intros Hshape Hr Hh Hsys. exists (loaded props elems s).
  assert (plain props) as Hplain.
  { unfold plain, field. rewrite Hshape. fold (field props "radius").
    fold (field props "height"). repeat split; try assumption.
    apply has_case_name. }
  split; [|split].
  - now apply load_fields_of.
  - apply loaded_fields.
  - apply loaded_enabled.
Qed.

Lemma jsonify_strings l :
  map (fun e => match e with
                | VUndefined => VNull
                | _ => jsonify e
                end) (map VStr l) = map VStr l.
Proof. rewrite map_map. now apply map_ext. Qed.

(** C4. A layout saved from a session whose shape is one of the four known
    shapes and whose radius and height are numbers, then loaded into any
    session, gives back that shape, radius and height and the same enabled
    systems (in the same order, hence the same set), without any error
    message; the time stamp plays no part. *)
Theorem save_load_roundtrip (s0 s1 : session) (shape : HabitatShape)
    (r h : R) (now : string) :
  currentShape s0 = VStr (shape_name shape) ->
  currentRadius s0 = VNum r ->
  currentHeight s0 = VNum h ->
  exists file s2,
    saveLayout now s0 = Returned file s0
    /\ loadLayout file s1 = Returned tt s2
    /\ currentShape s2 = VStr (shape_name shape)
    /\ currentRadius s2 = VNum r
    /\ currentHeight s2 = VNum h
    /\ enabled s2 = enabled s0
    /\ (forall id, In id (enabled s2)
                   <-> In id systemIds /\ checkboxes s0 id = true)
    /\ alerts s2 = alerts s1.
Proof.
  intros Hs Hr Hh.
  set (props := [ ("shape", VStr (shape_name shape)); ("radius", VNum r);
                  ("height", VNum h);
                  ("systems", VArr (map VStr (enabled s0)));
                  ("timestamp", VStr now) ]).
  assert (saveLayout now s0 = Returned (JsonText (VObj props)) s0) as Hsave.
  { unfold saveLayout.
    rewrite (bind_run get _ s0 s0 s0) by reflexivity.
    rewrite (bind_run getEnabledSystems _ s0 (enabled s0) s0) by reflexivity.
    rewrite Hs, Hr, Hh. unfold ret, JSON_stringify. do 2 f_equal.
    cbn [jsonify]. rewrite jsonify_strings. now destruct shape. }
  assert (lookup "systems" props = Some (VArr (map VStr (enabled s0)))) as Hsys
    by reflexivity.
  assert (plain props) as Hplain
    by (repeat split; try reflexivity; apply has_case_name).
  destruct (load_fields_of props (map VStr (enabled s0)) s1 Hplain Hsys)
    as (Hrun & Hshape & Hrad & Hhei & Hchk & Hal).
  assert (forall id, In id systemIds ->
            checkboxes (loaded props (map VStr (enabled s0)) s1) id
            = checkboxes s0 id) as Hsame.
  { intros id Hin. rewrite Hchk, checked_all_spec.
    apply existsb_eqb_In in Hin as Hex. rewrite Hex.
    apply eq_true_iff_eq. rewrite member_In, in_map_iff. split.
    - intros (x & [= ->] & Hx). unfold enabled in Hx.
      apply filter_In in Hx. exact (proj2 Hx).
    - intros Hc. exists id. split; [reflexivity|].
      unfold enabled. apply filter_In. split; assumption. }
  exists (JsonText (VObj props)), (loaded props (map VStr (enabled s0)) s1).
  split; [exact Hsave|]. split; [exact Hrun|].
  split; [exact Hshape|]. split; [exact Hrad|]. split; [exact Hhei|].
  split; [now apply filter_ext_in|].
  split; [|exact Hal].
  intros id. unfold enabled at 1. rewrite filter_In. split.
  - intros [Hin Hc]. split; [exact Hin|]. now rewrite <- Hsame.
  - intros [Hin Hc]. split; [exact Hin|]. now rewrite Hsame.
Qed.

(** C5, as the code has it. A text that is not JSON makes [loadLayout] show
    one message and change nothing else of the session: shape, radius,
    height, check boxes and markers stay as they were. The same holds for
    the JSON text [null], whose first field cannot be read. (A document that
    parses is applied field by field, with no check that a field is there.) *)
Theorem loadLayout_not_json (raw : string) (s : session) :
  (exists msg s',
     loadLayout (OtherText raw) s = Returned tt s'
     /\ s' = set_alerts (("Error loading layout file: " ++ msg) :: alerts s) s
     /\ currentShape s' = currentShape s
     /\ currentRadius s' = currentRadius s
     /\ currentHeight s' = currentHeight s
     /\ checkboxes s' = checkboxes s
     /\ systems s' = systems s)
  /\ (exists msg,
        loadLayout (JsonText VNull) s
        = Returned tt
            (set_alerts (("Error loading layout file: " ++ msg) :: alerts s) s)).
Proof.
  split.
  - eexists; eexists. split; [reflexivity|]. now repeat split.
  - eexists. reflexivity.
Qed.

(** ** Loading any document *)

Lemma set_control_throws v s :
  ToString_throws v = true ->
  set_control v s
  = Thrown (TypeError "Cannot convert object to primitive value") s.
Proof. unfold set_control. now intros ->. Qed.

Lemma createHabitat_throws s :
  has_case (currentShape s) = false ->
  createHabitat s
  = Thrown (TypeError
              "Cannot read properties of undefined (reading 'isGeometry')") s.
Proof.
  intros H. unfold createHabitat.
  now rewrite (bind_run get _ s s s eq_refl), H.
Qed.

Lemma get_prop_own layout name s :
  layout <> VUndefined -> layout <> VNull ->
  get_prop layout name s = Returned (own layout name) s.
Proof. destruct layout; intros H1 H2; try reflexivity; contradiction. Qed.

Lemma includes_tested container f id s :
  includes_test container = Some f ->
  includes container id s = Returned (f id) s.
Proof.
  destruct container; intros [= <-]; reflexivity.
Qed.

Lemma includes_untested container :
  includes_test container = None ->
  exists e, forall id s, includes container id s = Thrown e s.
Proof.
  destruct container; intros H; try discriminate; eexists; reflexivity.
Qed.

Lemma bind_thrown {A B} (c : M A) (k : A -> M B) s e s' :
  c s = Thrown e s' -> bind c k s = Thrown e s'.
Proof. unfold bind; now intros ->. Qed.

Lemma forEach_check_tested layout f l index s :
  layout <> VUndefined -> layout <> VNull ->
  includes_test (own layout "systems") = Some f ->
  forEach_from l (fun id _ =>
    layout_systems <- get_prop layout "systems" ;;
    b <- includes layout_systems id ;;
    check id b) index s
  = Returned tt (set_checkboxes (checked_all f l (checkboxes s)) s).
Proof.
  intros H1 H2 Hf. revert index s; induction l as [|id l IH]; intros index s.
  - cbn [forEach_from checked_all]. unfold ret. now destruct s.
  - cbn [forEach_from checked_all].
    rewrite (bind_run _ _ s tt
               (set_checkboxes
                  (fun k => if String.eqb k id then f id else checkboxes s k)
                  s)).
    + rewrite IH. reflexivity.
    + rewrite (bind_run _ _ _ _ _ (get_prop_own _ _ _ H1 H2)).
      rewrite (bind_run _ _ _ _ _ (includes_tested _ _ _ _ Hf)).
      reflexivity.
Qed.

Lemma convertible_fields layout :
  convertible layout = true ->
  ToString_throws (own layout "shape") = false
  /\ ToString_throws (own layout "radius") = false
  /\ ToString_throws (own layout "height") = false.
Proof.
  unfold convertible.
  destruct (ToString_throws (own layout "shape")),
    (ToString_throws (own layout "radius")),
    (ToString_throws (own layout "height")); intros H;
    try discriminate H; now repeat split.
Qed.

Lemma loadLayoutData_assigns layout s :
  layout <> VUndefined -> layout <> VNull ->
  convertible layout = true ->
  loadLayoutData layout s
  = (forEach systemIds (fun id _ =>
       layout_systems <- get_prop layout "systems" ;;
       b <- includes layout_systems id ;;
       check id b) ;;
     createHabitat ;;
     autoLayout) (assigned layout s).
Proof.
  intros H1 H2 (Hs & Hr & Hh)%convertible_fields. unfold loadLayoutData.
  rewrite (bind_run _ _ _ _ _ (get_prop_own _ "shape" _ H1 H2)).
  rewrite (bind_run _ _ _ _ _ (set_control_run _ _ Hs)).
  do 2 (rewrite (bind_run _ _ _ _ _ (get_prop_own _ "radius" _ H1 H2));
        rewrite (bind_run _ _ _ _ _ (set_control_run _ _ Hr));
        rewrite (bind_run _ _ _ _ _ (get_prop_own _ "height" _ H1 H2));
        rewrite (bind_run _ _ _ _ _ (set_control_run _ _ Hh))).
  rewrite (bind_run _ _ _ _ _ (get_prop_own _ _ _ H1 H2)).
  rewrite (bind_run (modify _) _ _ tt _ eq_refl).
  rewrite (bind_run _ _ _ _ _ (get_prop_own _ _ _ H1 H2)).
  rewrite (bind_run (modify _) _ _ tt _ eq_refl).
  rewrite (bind_run _ _ _ _ _ (get_prop_own _ _ _ H1 H2)).
  rewrite (bind_run (modify _) _ _ tt _ eq_refl).
  reflexivity.
Qed.

(** A field the controls cannot take stops the load before anything is
    assigned. *)
Lemma loadLayoutData_refused layout s :
  layout <> VUndefined -> layout <> VNull ->
  convertible layout = false ->
  loadLayoutData layout s
  = Thrown (TypeError "Cannot convert object to primitive value") s.
Proof.
  intros H1 H2 Hc. unfold loadLayoutData, convertible in *.
  rewrite (bind_run _ _ _ _ _ (get_prop_own _ "shape" _ H1 H2)).
  destruct (ToString_throws (own layout "shape")) eqn:Hs.
  { apply bind_thrown. now apply set_control_throws. }
  rewrite (bind_run _ _ _ _ _ (set_control_run _ _ Hs)).
  rewrite (bind_run _ _ _ _ _ (get_prop_own _ "radius" _ H1 H2)).
  destruct (ToString_throws (own layout "radius")) eqn:Hr.
  { apply bind_thrown. now apply set_control_throws. }
  rewrite (bind_run _ _ _ _ _ (set_control_run _ _ Hr)).
  rewrite (bind_run _ _ _ _ _ (get_prop_own _ "height" _ H1 H2)).
  destruct (ToString_throws (own layout "height")) eqn:Hh;
    [|discriminate Hc].
  apply bind_thrown. now apply set_control_throws.
Qed.

Lemma loadLayoutData_loadable layout f s :
  layout <> VUndefined -> layout <> VNull ->
  convertible layout = true ->
  includes_test (own layout "systems") = Some f ->
  has_case (own layout "shape") = true ->
  loadLayoutData layout s
  = Returned tt
      (autoLayout_result
         (updateHabitatInfo_result
            (set_checkboxes (checked_all f systemIds (checkboxes s))
               (assigned layout s)))).
Proof.
  intros H1 H2 Hc Hf Hshape. rewrite (loadLayoutData_assigns _ _ H1 H2 Hc).
  unfold forEach.
  rewrite (bind_run _ _ _ _ _ (forEach_check_tested _ _ _ _ _ H1 H2 Hf)).
  erewrite (bind_run createHabitat);
    [|apply createHabitat_run; exact Hshape].
  apply autoLayout_run.
Qed.

Lemma loadLayoutData_shapeless layout f s :
  layout <> VUndefined -> layout <> VNull ->
  convertible layout = true ->
  includes_test (own layout "systems") = Some f ->
  has_case (own layout "shape") = false ->
  exists e,
    loadLayoutData layout s
    = Thrown e (set_checkboxes (checked_all f systemIds (checkboxes s))
                  (assigned layout s)).
Proof.
  intros H1 H2 Hc Hf Hshape. eexists.
  rewrite (loadLayoutData_assigns _ _ H1 H2 Hc). unfold forEach.
  rewrite (bind_run _ _ _ _ _ (forEach_check_tested _ _ _ _ _ H1 H2 Hf)).
  apply bind_thrown. apply createHabitat_throws. exact Hshape.
Qed.

Lemma loadLayoutData_unloadable layout s :
  layout <> VUndefined -> layout <> VNull ->
  convertible layout = true ->
  includes_test (own layout "systems") = None ->
  exists e, loadLayoutData layout s = Thrown e (assigned layout s).
Proof.
  intros H1 H2 Hc Hf. destruct (includes_untested _ Hf) as (e & He).
  exists e. rewrite (loadLayoutData_assigns _ _ H1 H2 Hc).
  apply bind_thrown. unfold forEach, systemIds. cbn [forEach_from].
  apply bind_thrown.
  rewrite (bind_run _ _ _ _ _ (get_prop_own _ _ _ H1 H2)).
  apply bind_thrown. apply He.
Qed.

Lemma cons_neq {A} (a : A) (l : list A) : a :: l <> l.
Proof.
  intros H. apply (f_equal (@List.length A)) in H. simpl in H. lia.
Qed.

Lemma loadLayout_caught layout e s s1 :
  loadLayoutData layout s = Thrown e s1 ->
  loadLayout (JsonText layout) s
  = Returned tt
      (set_alerts (("Error loading layout file: " ++ message e) :: alerts s1)
         s1).
Proof.
  intros H. unfold loadLayout, try_catch.
  rewrite (bind_run (JSON_parse _) _ s layout s) by reflexivity. now rewrite H.
Qed.

(** The five ways a load can go. *)
Lemma loadLayout_cases file s :
  (exists msg,
     loadLayout file s = Returned tt (set_alerts (msg :: alerts s) s)
     /\ forall layout, file = JsonText layout ->
                       layout = VUndefined \/ layout = VNull
                       \/ convertible layout = false)
  \/ (exists layout msg,
        file = JsonText layout
        /\ layout <> VUndefined /\ layout <> VNull
        /\ convertible layout = true
        /\ includes_test (own layout "systems") = None
        /\ loadLayout file s
           = Returned tt (set_alerts (msg :: alerts s) (assigned layout s)))
  \/ (exists layout f msg,
        file = JsonText layout
        /\ layout <> VUndefined /\ layout <> VNull
        /\ convertible layout = true
        /\ includes_test (own layout "systems") = Some f
        /\ has_case (own layout "shape") = false
        /\ loadLayout file s
           = Returned tt
               (set_alerts (msg :: alerts s)
                  (set_checkboxes (checked_all f systemIds (checkboxes s))
                     (assigned layout s))))
  \/ (exists layout f,
        file = JsonText layout
        /\ layout <> VUndefined /\ layout <> VNull
        /\ convertible layout = true
        /\ includes_test (own layout "systems") = Some f
        /\ has_case (own layout "shape") = true
        /\ loadLayout file s
           = Returned tt
               (autoLayout_result
                  (updateHabitatInfo_result
                     (set_checkboxes (checked_all f systemIds (checkboxes s))
                        (assigned layout s))))).
Proof.
  destruct file as [layout|raw].
  - assert (layout = VUndefined \/ layout = VNull
            \/ (layout <> VUndefined /\ layout <> VNull)) as [H|[H|[H1 H2]]]
      by (destruct layout; auto; right; right; split; discriminate).
    + left. subst. eexists. split; [reflexivity|]. intros ? [= <-]. now left.
    + left. subst. eexists. split; [reflexivity|]. intros ? [= <-].
      right. now left.
    + destruct (convertible layout) eqn:Hc.
      2:{ left. eexists. split.
          - apply loadLayout_caught. now apply loadLayoutData_refused.
          - intros ? [= <-]. now right; right. }
      destruct (includes_test (own layout "systems")) as [f|] eqn:Hf.
      2:{ right; left.
          destruct (loadLayoutData_unloadable layout s H1 H2 Hc Hf)
            as (e & He).
          exists layout. eexists.
          repeat (split; [assumption || reflexivity|]).
          apply (loadLayout_caught _ _ _ _ He). }
      destruct (has_case (own layout "shape")) eqn:Hshape.
      * right; right; right. exists layout, f.
        repeat (split; [assumption || reflexivity|]).
        unfold loadLayout, try_catch.
        rewrite (bind_run (JSON_parse _) _ s layout s) by reflexivity.
        now rewrite (loadLayoutData_loadable _ _ _ H1 H2 Hc Hf Hshape).
      * right; right; left.
        destruct (loadLayoutData_shapeless layout f s H1 H2 Hc Hf Hshape)
          as (e & He).
        exists layout, f. eexists.
        repeat (split; [assumption || reflexivity|]).
        apply (loadLayout_caught _ _ _ _ He).
  - left. eexists. split; [reflexivity|]. discriminate.
Qed.

Lemma loadable_tested layout f :
  layout <> VUndefined -> layout <> VNull ->
  includes_test (own layout "systems") = Some f -> loadable layout = true.
Proof.
  intros H1 H2 Hf. unfold loadable. rewrite Hf. now destruct layout.
Qed.

Lemma loadable_untested layout :
  includes_test (own layout "systems") = None -> loadable layout = false.
Proof.
  intros Hf. unfold loadable. rewrite Hf. now destruct layout.
Qed.

Lemma laid_out_untouched s :
  alerts (autoLayout_result (updateHabitatInfo_result s)) = alerts s.
Proof.
  destruct (autoLayout_frame (updateHabitatInfo_result s))
    as (_ & _ & _ & _ & H).
  exact H.
Qed.

(** X1. [loadLayout] never lets an exception out, whatever the file holds,
    and shows at most one message. It shows none for a JSON value with a
    known shape, fields the form controls can take and a [systems] that is
    an array or a string. Whenever it shows one, the markers, the counter
    and the read-outs are as they were; and when the text is not JSON, is
    [null], has a field the controls cannot take or a [systems] that is
    neither an array nor a string, it does show one and the check boxes are
    as they were too. *)
Theorem loadLayout_outcome (file : text) (s : session) :
  exists s',
    loadLayout file s = Returned tt s'
    /\ ((exists layout shape,
           file = JsonText layout /\ loadable layout = true
           /\ convertible layout = true
           /\ own layout "shape" = VStr (shape_name shape)) ->
        alerts s' = alerts s)
    /\ (alerts s' = alerts s
        \/ (exists msg, alerts s' = msg :: alerts s)
           /\ systems s' = systems s
           /\ systems_count s' = systems_count s
           /\ volume_display s' = volume_display s
           /\ surface_display s' = surface_display s
           /\ crew_display s' = crew_display s)
    /\ ((forall layout, file = JsonText layout ->
                        loadable layout = false \/ convertible layout = false) ->
        (exists msg, alerts s' = msg :: alerts s)
        /\ checkboxes s' = checkboxes s).
Proof.
  destruct (loadLayout_cases file s)
    as [(msg & Hrun & Hno)
       |[(layout & msg & -> & H1 & H2 & Hc & Hf & Hrun)
        |[(layout & f & msg & -> & H1 & H2 & Hc & Hf & Hshape & Hrun)
         |(layout & f & -> & H1 & H2 & Hc & Hf & Hshape & Hrun)]]];
    eexists; (split; [exact Hrun|]); (split; [|split]).
  - intros (layout & shape & -> & Hyes & Hc & _).
    destruct (Hno _ eq_refl) as [-> | [-> | Hn]]; try discriminate.
    rewrite Hn in Hc. discriminate.
  - right. split; [now exists msg|]. now repeat split.
  - intros _. split; [now exists msg|reflexivity].
  - intros (l' & shape & [= <-] & Hyes & _).
    rewrite (loadable_untested _ Hf) in Hyes. discriminate.
  - right. split; [now exists msg|]. now repeat split.
  - intros _. split; [now exists msg|reflexivity].
  - intros (l' & shape & [= <-] & _ & _ & Hname).
    rewrite Hname, has_case_name in Hshape. discriminate.
  - right. split; [now exists msg|]. now repeat split.
  - intros Hno. destruct (Hno _ eq_refl) as [Hn|Hn].
    + rewrite (loadable_tested _ _ H1 H2 Hf) in Hn. discriminate.
    + rewrite Hn in Hc. discriminate.
  - intros _. now rewrite laid_out_untouched.
  - left. now rewrite laid_out_untouched.
  - intros Hno. destruct (Hno _ eq_refl) as [Hn|Hn].
    + rewrite (loadable_tested _ _ H1 H2 Hf) in Hn. discriminate.
    + rewrite Hn in Hc. discriminate.
Qed.


Lemma prefix_app needle hay :
  prefix needle hay = true <-> exists post, hay = needle ++ post.
Proof.
  revert hay; induction needle as [|a needle IH]; intros hay.
  - split; [intros _; now exists hay|]. destruct hay; reflexivity.
  - destruct hay as [|b hay]; cbn [prefix].
    + split; [discriminate|]. intros (post & H). discriminate.
    + destruct (Ascii.ascii_dec a b) as [->|Hab].
      * rewrite IH. split; intros (post & H); exists post.
        -- cbn. now rewrite H.
        -- cbn in H. now injection H.
      * split; [discriminate|]. intros (post & H). cbn in H.
        injection H as H _. congruence.
Qed.

Lemma is_substring_app needle hay :
  is_substring needle hay = true
  <-> exists pre post, hay = pre ++ needle ++ post.
Proof.
  induction hay as [|b hay IH].
  - cbn [is_substring]. rewrite orb_false_r, prefix_app. split.
    + intros (post & H). now exists "", post.
    + intros ([|c pre] & post & H); [now exists post|discriminate].
  - cbn [is_substring]. rewrite orb_true_iff, prefix_app, IH. split.
    + intros [(post & H)|(pre & post & H)].
      * now exists "", post.
      * exists (String b pre), post. cbn. now rewrite H.
    + intros ([|c pre] & post & H).
      * left. now exists post.
      * right. cbn in H. injection H as _ H. now exists pre, post.
Qed.

Lemma loaded_checkboxes f layout s id :
  In id systemIds ->
  checkboxes
    (autoLayout_result
       (updateHabitatInfo_result
          (set_checkboxes (checked_all f systemIds (checkboxes s))
             (assigned layout s)))) id
  = f id.
Proof.
  intros Hin.
  destruct (autoLayout_frame
              (updateHabitatInfo_result
                 (set_checkboxes (checked_all f systemIds (checkboxes s))
                    (assigned layout s)))) as (_ & _ & _ & -> & _).
  cbn [checkboxes updateHabitatInfo_result set_displays set_checkboxes].
  rewrite checked_all_spec.
  apply existsb_eqb_In in Hin. now rewrite Hin.
Qed.

Lemma plain_convertible props :
  plain props ->
  convertible (VObj props) = true
  /\ has_case (own (VObj props) "shape") = true.
Proof.
  intros (Hshape & Hr & Hh). split; [|exact Hshape].
  unfold convertible. cbn [own].
  now rewrite (has_case_converts _ Hshape), Hr, Hh.
Qed.

(** X3. When [systems] is a string and not an array (in a document with a
    known shape and a radius and a height the form controls can take), the
    load raises no error: a known system ends up enabled exactly when its
    identifier occurs somewhere inside that string. *)
Theorem load_systems_string (props : list (string * value)) (str : string)
    (shape : HabitatShape) (s : session) :
  lookup "shape" props = Some (VStr (shape_name shape)) ->
  ToString_throws (field props "radius") = false ->
  ToString_throws (field props "height") = false ->
  lookup "systems" props = Some (VStr str) ->
  exists s',
    loadLayout (JsonText (VObj props)) s = Returned tt s'
    /\ alerts s' = alerts s
    /\ forall id, In id (enabled s')
                  <-> In id systemIds /\ exists pre post, str = pre ++ id ++ post.
Proof.
  intros Hname Hr Hh Hsys.
  set (f := fun id => is_substring id str).
  assert (includes_test (own (VObj props) "systems") = Some f) as Hf
    by (cbn [own]; unfold field; now rewrite Hsys).
  assert (plain props) as Hplain.
  { unfold plain, field. rewrite Hname. fold (field props "radius").
    fold (field props "height"). repeat split; try assumption.
    apply has_case_name. }
  destruct (plain_convertible _ Hplain) as (Hc & Hshape).
  assert (VObj props <> VUndefined) as H1 by discriminate.
  assert (VObj props <> VNull) as H2 by discriminate.
  exists (autoLayout_result
            (updateHabitatInfo_result
               (set_checkboxes (checked_all f systemIds (checkboxes s))
                  (assigned (VObj props) s)))).
  split.
  { unfold loadLayout, try_catch.
    rewrite (bind_run (JSON_parse _) _ s (VObj props) s) by reflexivity.
    rewrite (loadLayoutData_loadable _ _ _ H1 H2 Hc Hf Hshape). reflexivity. }
  split; [now rewrite laid_out_untouched|].
  intros id. unfold enabled at 1. rewrite filter_In.
  split; intros [Hin H]; (split; [exact Hin|]).
  - rewrite (loaded_checkboxes f _ _ _ Hin) in H.
    now apply is_substring_app.
  - rewrite (loaded_checkboxes f _ _ _ Hin).
    now apply is_substring_app.
Qed.

(** X4. Saving right after loading a document whose [systems] is an array
    and whose fields the form controls can take writes it in normal form,
    whether or not the load ended in an error message: the [systems]
    written are the known identifiers the loaded array held, each once and
    in the fixed order of the ten, whatever the order, the repetitions and
    the unknown entries of the loaded array; shape, radius and height are
    written as loaded. *)
Theorem save_after_load (props : list (string * value)) (elems : list value)
    (now : string) (s : session) :
  convertible (VObj props) = true ->
  lookup "systems" props = Some (VArr elems) ->
  exists s',
    loadLayout (JsonText (VObj props)) s = Returned tt s'
    /\ saveLayout now s'
       = Returned
           (JSON_stringify
              (VObj [ ("shape", field props "shape");
                      ("radius", field props "radius");
                      ("height", field props "height");
                      ("systems",
                       VArr (map VStr (filter (member elems) systemIds)));
                      ("timestamp", VStr now) ]))
           s'.
Proof.
  intros Hc Hsys.
  assert (includes_test (own (VObj props) "systems") = Some (member elems))
    as Hf by (cbn [own]; unfold field; now rewrite Hsys).
  assert (exists s',
            loadLayout (JsonText (VObj props)) s = Returned tt s'
            /\ currentShape s' = field props "shape"
            /\ currentRadius s' = field props "radius"
            /\ currentHeight s' = field props "height"
            /\ checkboxes s'
               = checked_all (member elems) systemIds (checkboxes s))
    as (s' & Hrun & Hshape & Hrad & Hhei & Hchk).
  { destruct (loadLayout_cases (JsonText (VObj props)) s)
      as [(msg & Hrun & Hno)
         |[(l' & msg & [= <-] & _ & _ & _ & Hf' & Hrun)
          |[(l' & f & msg & [= <-] & _ & _ & _ & Hf' & _ & Hrun)
           |(l' & f & [= <-] & _ & _ & _ & Hf' & _ & Hrun)]]].
    - destruct (Hno _ eq_refl) as [Hn|[Hn|Hn]]; try discriminate.
      rewrite Hn in Hc. discriminate.
    - rewrite Hf in Hf'. discriminate.
    - rewrite Hf in Hf'. injection Hf' as <-.
      eexists. split; [exact Hrun|]. now repeat split.
    - rewrite Hf in Hf'. injection Hf' as <-.
      eexists. split; [exact Hrun|].
      destruct (autoLayout_frame
                  (updateHabitatInfo_result
                     (set_checkboxes
                        (checked_all (member elems) systemIds (checkboxes s))
                        (assigned (VObj props) s))))
        as (-> & -> & -> & -> & _).
      now repeat split. }
  exists s'. split; [exact Hrun|].
  unfold saveLayout.
  rewrite (bind_run get _ s' s' s' eq_refl).
  rewrite (bind_run _ _ _ _ _ (getEnabledSystems_run s')).
  rewrite Hshape, Hrad, Hhei.
  replace (enabled s') with (filter (member elems) systemIds);
    [reflexivity|].
  unfold enabled. apply filter_ext_in. intros id Hin.
  rewrite Hchk, checked_all_spec.
  apply existsb_eqb_In in Hin. now rewrite Hin.
Qed.

(** ** What every listener keeps *)

Lemma NoDup_systemIds : NoDup systemIds.
Proof.
  replace systemIds with (nodup string_dec systemIds) by reflexivity.
  apply NoDup_nodup.
Qed.

Lemma autoLayout_consistent s :
  consistent (autoLayout_result s)
  /\ (List.length (systems (autoLayout_result s)) <= 10)%nat.
Proof.
  unfold consistent.
  rewrite autoLayout_count, autoLayout_systems, placements_kinds,
    placements_length.
  unfold enabled. repeat split.
  - apply NoDup_filter, NoDup_systemIds.
  - intros id Hin. now apply filter_In in Hin as [Hin _].
  - apply (filter_length_le (checkboxes s) systemIds).
Qed.

Lemma autoLayout_displays s :
  volume_display (autoLayout_result s) = volume_display s
  /\ surface_display (autoLayout_result s) = surface_display s
  /\ crew_display (autoLayout_result s) = crew_display s.
Proof.
  unfold autoLayout_result. now destruct (enabled s).
Qed.

Lemma in_step_updated s : in_step (updateHabitatInfo_result s).
Proof. unfold in_step, updateHabitatInfo_result. now repeat split. Qed.

Lemma in_step_laid_out s : in_step s -> in_step (autoLayout_result s).
Proof.
  unfold in_step.
  destruct (autoLayout_frame s) as (-> & -> & -> & _).
  now destruct (autoLayout_displays s) as (-> & -> & ->).
Qed.

Lemma changed_run (f : session -> session) s :
  has_case (currentShape (f s)) = true ->
  (modify f ;; createHabitat) s = Returned tt (updateHabitatInfo_result (f s)).
Proof.
  intros H. rewrite (bind_run (modify f) _ s tt (f s) eq_refl).
  now apply createHabitat_run.
Qed.

Lemma changed_throws (f : session -> session) s :
  has_case (currentShape (f s)) = false ->
  exists err, (modify f ;; createHabitat) s = Thrown err (f s).
Proof.
  intros H. eexists. rewrite (bind_run (modify f) _ s tt (f s) eq_refl).
  now apply createHabitat_throws.
Qed.

(** A slider moved: the shell is redrawn if the current shape is one of the
    four, and the listener throws if not. *)
Lemma slider_outcome (f : session -> session) s :
  currentShape (f s) = currentShape s ->
  alerts (f s) = alerts s ->
  (consistent s -> consistent (f s)) ->
  exists errs s',
    match (modify f ;; createHabitat) s with
    | Returned _ s' => ([], s')
    | Thrown err s' => ([err], s')
    end = (errs, s')
    /\ (exists shown, alerts s' = shown ++ alerts s)%list
    /\ (consistent s -> consistent s')
    /\ (in_step s -> has_case (currentShape s) = true ->
        alerts s' = alerts s ->
        errs = [] /\ in_step s' /\ has_case (currentShape s') = true).
Proof.
  intros Hshape Hal Hcons.
  destruct (has_case (currentShape (f s))) eqn:Hcase.
  - rewrite (changed_run f s Hcase). do 2 eexists. split; [reflexivity|].
    split; [exists []; exact Hal|]. split; [exact Hcons|].
    intros _ _ _. split; [reflexivity|]. split; [apply in_step_updated|].
    exact Hcase.
  - destruct (changed_throws f s Hcase) as (err & ->).
    do 2 eexists. split; [reflexivity|].
    split; [exists []; exact Hal|]. split; [exact Hcons|].
    intros _ Hknown _. rewrite Hshape, Hknown in Hcase. discriminate.
Qed.

(** What one event leaves: any message it shows is put in front of the
    earlier ones, and the invariants carry over (the read-outs and the known
    shape under the condition that no message was added, in which case
    nothing is reported on the console either). *)
Lemma dispatch_outcome e s :
  exists errs s',
    dispatch e s = (errs, s')
    /\ (exists shown, alerts s' = shown ++ alerts s)%list
    /\ (consistent s -> consistent s')
    /\ (in_step s -> has_case (currentShape s) = true ->
        alerts s' = alerts s ->
        errs = [] /\ in_step s' /\ has_case (currentShape s') = true).
Proof.
  unfold dispatch.
  destruct e as [shape|r|h| | |now|file|id]; cbn [listener].
  - unfold on_shape_change.
    rewrite (changed_run (set_currentShape (VStr (shape_name shape))) s
               (has_case_name shape)).
    do 2 eexists. split; [reflexivity|]. split; [now exists []|].
    split; [trivial|]. intros _ _ _. split; [reflexivity|].
    split; [apply in_step_updated|apply has_case_name].
  - apply slider_outcome; trivial.
  - apply slider_outcome; trivial.
  - rewrite autoLayout_run. do 2 eexists. split; [reflexivity|].
    split; [exists []; apply autoLayout_frame|].
    split; [intros _; apply autoLayout_consistent|].
    intros H Hknown _. split; [reflexivity|].
    split; [now apply in_step_laid_out|].
    now destruct (autoLayout_frame s) as (-> & _).
  - exists [], (set_systems_count 0 (set_systems [] s)).
    split; [reflexivity|]. split; [now exists []|].
    split;
      [|intros H Hknown _; split; [reflexivity|split; [exact H|exact Hknown]]].
    intros _. repeat split; [constructor|intros ? []].
  - exists [], s. split; [reflexivity|]. split; [now exists []|].
    split; [trivial|]. intros H Hknown _.
    split; [reflexivity|split; [exact H|exact Hknown]].
  - destruct (loadLayout_cases file s)
      as [(msg & Hrun & _)
         |[(layout & msg & _ & _ & _ & _ & _ & Hrun)
          |[(layout & f & msg & _ & _ & _ & _ & _ & _ & Hrun)
           |(layout & f & _ & _ & _ & _ & _ & Hshape & Hrun)]]];
      rewrite Hrun; do 2 eexists; (split; [reflexivity|]).
    + split; [now exists [msg]|]. split; [trivial|].
      intros _ _ H. now apply cons_neq in H.
    + split; [now exists [msg]|]. split; [trivial|].
      intros _ _ H. now apply cons_neq in H.
    + split; [now exists [msg]|]. split; [trivial|].
      intros _ _ H. now apply cons_neq in H.
    + split; [exists []; now rewrite laid_out_untouched|].
      split; [intros _; apply autoLayout_consistent|].
      intros _ _ _. split; [reflexivity|].
      split; [apply in_step_laid_out, in_step_updated|].
      destruct (autoLayout_frame
                  (updateHabitatInfo_result
                     (set_checkboxes (checked_all f systemIds (checkboxes s))
                        (assigned layout s)))) as (-> & _).
      exact Hshape.
  - exists [], (set_systems_count (List.length (systems s))
                  (set_checkboxes
                     (fun k => if String.eqb k id then negb (checkboxes s id)
                               else checkboxes s k) s)).
    split; [reflexivity|]. split; [now exists []|].
    split;
      [|intros H Hknown _; split; [reflexivity|split; [exact H|exact Hknown]]].
    intros (_ & H2 & H3). now repeat split.
Qed.

Lemma dispatch_all_cons e es s errs s1 :
  dispatch e s = (errs, s1) ->
  dispatch_all (e :: es) s
  = ((errs ++ fst (dispatch_all es s1))%list, snd (dispatch_all es s1)).
Proof.
  intros H. cbn [dispatch_all]. rewrite H.
  now destruct (dispatch_all es s1).
Qed.

Lemma dispatch_all_alerts es s :
  (exists shown, alerts (snd (dispatch_all es s)) = shown ++ alerts s)%list.
Proof.
  revert s; induction es as [|e es IH]; intros s.
  - now exists [].
  - destruct (dispatch_outcome e s) as (errs & s1 & Hrun & (p1 & Hp1) & _).
    rewrite (dispatch_all_cons _ _ _ _ _ Hrun). cbn [snd].
    destruct (IH s1) as (p2 & Hp2).
    exists (p2 ++ p1)%list. now rewrite Hp2, Hp1, app_assoc.
Qed.

(** X5. Whatever the user does, in whatever order (shape, sliders, the
    four buttons, files of any content, check boxes), and whether or not a
    listener throws on the way, from a session where the counter shows the
    number of markers and the markers are of distinct known kinds, this
    stays so. *)
Theorem listeners_keep_markers_consistent (es : list event) (s : session) :
  consistent s ->
  consistent (snd (dispatch_all es s)).
Proof.
  revert s; induction es as [|e es IH]; intros s Hs.
  - exact Hs.
  - destruct (dispatch_outcome e s) as (errs & s1 & Hrun & _ & Hcons & _).
    rewrite (dispatch_all_cons _ _ _ _ _ Hrun). cbn [snd].
    apply IH, Hcons, Hs.
Qed.

(** X6. From a session whose shape is one of the four and whose read-outs
    of volume, surface and crew are those of the current shape, radius and
    height, any run of user actions during which no error message was shown
    leaves the read-outs in step again, with a shape that is one of the
    four, and no listener threw on the way. *)
Theorem listeners_keep_readouts (es : list event) (s : session) :
  in_step s ->
  has_case (currentShape s) = true ->
  alerts (snd (dispatch_all es s)) = alerts s ->
  fst (dispatch_all es s) = []
  /\ in_step (snd (dispatch_all es s))
  /\ has_case (currentShape (snd (dispatch_all es s))) = true.
Proof.
  revert s; induction es as [|e es IH]; intros s Hs Hknown Hsame.
  - split; [reflexivity|split; assumption].
  - destruct (dispatch_outcome e s)
      as (errs & s1 & Hrun & (p1 & Hp1) & _ & Hstep).
    rewrite (dispatch_all_cons _ _ _ _ _ Hrun) in Hsame |- *.
    cbn [fst snd] in Hsame |- *.
    destruct (dispatch_all_alerts es s1) as (p2 & Hp2).
    assert (p1 = [] /\ p2 = []) as (-> & ->).
    { rewrite Hp2, Hp1, app_assoc in Hsame.
      apply (f_equal (@List.length string)) in Hsame.
      rewrite !length_app in Hsame.
      destruct p2, p1; cbn in Hsame; try lia. now split. }
    destruct (Hstep Hs Hknown Hp1) as (-> & Hs1 & Hknown1).
    destruct (IH s1 Hs1 Hknown1) as (Hnone & Hs' & Hknown').
    { rewrite Hp2. reflexivity. }
    rewrite Hnone. split; [reflexivity|split; assumption].
Qed.

(** ** The markers on the circle *)

Lemma same_direction a b :
  0 <= a < 2 * PI -> 0 <= b < 2 * PI ->
  cos a = cos b -> sin a = sin b -> a = b.
Proof.
  intros Ha Hb Hc Hs.
  assert (sin (a - b) = 0) as Hsin by (rewrite sin_minus, Hc, Hs; ring).
  assert (cos (a - b) = 1) as Hcos.
  { rewrite cos_minus, Hc, Hs. pose proof (sin2_cos2 b) as H.
    unfold Rsqr in H. lra. }
  apply sin_eq_0_0 in Hsin as (k & Hk).
  pose proof PI_RGT_0 as Hpi.
  assert (-2 < IZR k < 2) as [Hlo Hhi] by (split; nra).
  apply lt_IZR in Hlo, Hhi.
  assert (k = (-1)%Z \/ k = 0%Z \/ k = 1%Z) as [-> | [-> | ->]] by lia.
  - rewrite Hk in Hcos.
    replace (-1 * PI) with (- PI) in Hcos by ring.
    rewrite cos_neg, cos_PI in Hcos. lra.
  - lra.
  - rewrite Hk in Hcos. rewrite Rmult_1_l, cos_PI in Hcos. lra.
Qed.

Lemma angle_range (i n : nat) :
  (i < n)%nat -> 0 <= INR i * (2 * PI / INR n) < 2 * PI.
Proof.
  intros Hi. pose proof PI_RGT_0 as Hpi.
  assert (0 < INR n) as Hn by (apply lt_0_INR; lia).
  assert (0 <= INR i < INR n) as [H0 H1]
    by (split; [apply pos_INR|now apply lt_INR]).
  replace (INR i * (2 * PI / INR n)) with (2 * PI * (INR i / INR n))
    by (field; lra).
  assert (0 <= INR i / INR n < 1) as [H2 H3].
  { split.
    - apply Rmult_le_pos; [exact H0|]. left. now apply Rinv_0_lt_compat.
    - apply (Rmult_lt_reg_r (INR n)); [exact Hn|].
      unfold Rdiv. rewrite Rmult_assoc, Rinv_l; lra. }
  split; nra.
Qed.

Lemma placed_at s i p :
  nth_error (systems (autoLayout_result s)) i = Some p ->
  (i < List.length (enabled s))%nat
  /\ exists systemType,
       nth_error (enabled s) i = Some systemType
       /\ p = placement (ToNumber (currentRadius s) * Num 0.8)%js
                (ToNumber (currentHeight s) * Num 0.8)%js
                (2 * PI / INR (List.length (enabled s)))
                (Math_random (draws s + i)) systemType i.
Proof.
  rewrite autoLayout_systems. intros Hp.
  assert (i < List.length (enabled s))%nat as Hi.
  { rewrite <- (placements_length
                  (ToNumber (currentRadius s) * Num 0.8)%js
                  (ToNumber (currentHeight s) * Num 0.8)%js
                  (2 * PI / INR (List.length (enabled s))) (enabled s) 0
                  (draws s)).
    apply nth_error_Some. now rewrite Hp. }
  split; [exact Hi|].
  destruct (nth_error (enabled s) i) as [systemType|] eqn:Hk;
    [|apply nth_error_None in Hk; lia].
  exists systemType. split; [reflexivity|].
  rewrite (placements_nth _ _ _ _ _ _ _ _ Hk) in Hp.
  now injection Hp as <-.
Qed.

(** X7. With a radius other than 0, no two markers of a layout share their
    place in the x-z plane. *)
Theorem markers_do_not_overlap (s : session) (r : R) :
  currentRadius s = VNum r ->
  r <> 0 ->
  exists s',
    autoLayout s = Returned tt s'
    /\ forall i j p q,
         i <> j ->
         nth_error (systems s') i = Some p ->
         nth_error (systems s') j = Some q ->
         (vx (position p), vz (position p))
         <> (vx (position q), vz (position q)).
Proof.
  intros Hr Hr0.
  exists (autoLayout_result s). split; [apply autoLayout_run|].
  intros i j p q Hij Hp Hq.
  apply placed_at in Hp as (Hi & ki & _ & ->).
  apply placed_at in Hq as (Hj & kj & _ & ->).
  rewrite Hr. cbn [ToNumber placement createSystem position vx vz].
  unfold Num, nmul, lift2. intros [= Hx Hz].
  apply Hij, INR_eq.
  assert (r * 0.8 <> 0) as Hrho by lra.
  apply Rmult_eq_reg_r in Hx, Hz; try exact Hrho.
  pose proof (same_direction _ _ (angle_range i _ Hi) (angle_range j _ Hj)
                Hx Hz) as Hangle.
  assert (0 < INR (List.length (enabled s))) as Hn by (apply lt_0_INR; lia).
  pose proof PI_RGT_0 as Hpi.
  apply Rmult_eq_reg_r in Hangle; [exact Hangle|].
  apply Rgt_not_eq. apply Rdiv_lt_0_compat; lra.
Qed.

(** ** More on the metrics *)



(** X10. Scaling radius and height by the same factor k multiplies the
    volume by k^3 and the surface area by k^2, for each of the four
    shapes. *)
Theorem metrics_scale (shape : HabitatShape) (k r h : R) :
  exists volume surfaceArea,
    metrics (VStr (shape_name shape)) (VNum r) (VNum h)
    = (Num volume, Num surfaceArea)
    /\ metrics (VStr (shape_name shape)) (VNum (k * r)) (VNum (k * h))
       = (Num (k ^ 3 * volume), Num (k ^ 2 * surfaceArea)).
Proof.
  rewrite !metrics_shape.
  destruct shape; do 2 eexists; (split; [reflexivity|]);
    f_equal; f_equal; field.
Qed.

Lemma volume_monotone (shape : HabitatShape) (r1 r2 h1 h2 : R) :
  0 <= r1 <= r2 -> 0 <= h1 <= h2 ->
  exists v1 v2,
    fst (metrics (VStr (shape_name shape)) (VNum r1) (VNum h1)) = Num v1
    /\ fst (metrics (VStr (shape_name shape)) (VNum r2) (VNum h2)) = Num v2
    /\ 0 <= v1 <= v2.
Proof.
  intros [Hr0 Hr] [Hh0 Hh]. rewrite !metrics_shape.
  pose proof PI_RGT_0 as Hpi.
  assert (0 <= r1 * r1 <= r2 * r2) as [Hq0 Hq] by (split; nra).
  assert (0 <= r1 * r1 * r1 <= r2 * r2 * r2) as [Hc0 Hc] by (split; nra).
  assert (0 <= r1 * r1 * h1 <= r2 * r2 * h2) as [Hv0 Hv] by (split; nra).
  assert (0 < PI * PI) as Hpp by nra.
  destruct shape; do 2 eexists; cbn [fst];
    (split; [reflexivity|]); (split; [reflexivity|]).
  - split; nra.
  - split; nra.
  - split; nra.
  - split; nra.
Qed.

(** X11. A larger habitat never houses fewer people: for each of the four
    shapes, if neither radius nor height shrinks (both being non-negative),
    the crew capacity shown does not go down, and it is never negative. *)
Theorem crew_capacity_monotone (shape : HabitatShape) (s1 s2 : session)
    (r1 r2 h1 h2 : R) :
  currentShape s1 = VStr (shape_name shape) ->
  currentShape s2 = VStr (shape_name shape) ->
  currentRadius s1 = VNum r1 -> currentHeight s1 = VNum h1 ->
  currentRadius s2 = VNum r2 -> currentHeight s2 = VNum h2 ->
  0 <= r1 <= r2 ->
  0 <= h1 <= h2 ->
  exists t1 t2 crew1 crew2,
    updateHabitatInfo s1 = Returned tt t1
    /\ updateHabitatInfo s2 = Returned tt t2
    /\ crew_display t1 = Some crew1
    /\ crew_display t2 = Some crew2
    /\ (0 <= crew1 <= crew2)%Z.
Proof.
  intros Hs1 Hs2 Hr1 Hh1 Hr2 Hh2 Hr Hh.
  destruct (volume_monotone shape r1 r2 h1 h2 Hr Hh)
    as (v1 & v2 & Hv1 & Hv2 & Hpos & Hle).
  exists (updateHabitatInfo_result s1), (updateHabitatInfo_result s2),
    (Zfloor (v1 / 20)), (Zfloor (v2 / 20)).
  split; [apply updateHabitatInfo_run|].
  split; [apply updateHabitatInfo_run|].
  unfold updateHabitatInfo_result.
  rewrite Hs1, Hs2, Hr1, Hh1, Hr2, Hh2.
  cbn [crew_display set_displays]. rewrite Hv1, Hv2.
  split; [reflexivity|]. split; [reflexivity|]. split.
  - apply (Zfloor_lub 0). lra.
  - apply Zfloor_le. lra.
Qed.

(** ** The workspace *)

Lemma choose_palette_current data_theme :
  choose_palette (getCurrentTheme data_theme)
  = assoc (getCurrentTheme data_theme) palettes
  /\ (getCurrentTheme data_theme = "dark"
      \/ getCurrentTheme data_theme = "light").
Proof.
  unfold getCurrentTheme. destruct data_theme as [attr|]; [|now split; [|right]].
  destruct (String.eqb attr "dark"); split; auto.
Qed.

Lemma applyTheme_with_scene theme this w c :
  scene w = Some c ->
  exists w',
    applyThemeToWorkspace theme this w = inr w'
    /\ scene w' = Some (option_map background (choose_palette theme))
    /\ habitatGroup w' = habitatGroup w
    /\ (gridHelper w <> None ->
        gridHelper w'
        = Some (mkGrid 100 20 0x444444 0x222222
                  (option_map Ropp (ToNumber (currentHeight this)) / 2)%js
                  None))
    /\ (ambientLight w <> None ->
        ambientLight w'
        = Some (option_map ambientIntensity (choose_palette theme)))
    /\ (pointLight w <> None ->
        pointLight w' = Some (option_map pointColor (choose_palette theme)))
    /\ (habitatMaterial w <> None ->
        habitatMaterial w' = Some (option_map accent (choose_palette theme)))
    /\ (wireframeMaterial w <> None ->
        wireframeMaterial w' = Some (option_map accent (choose_palette theme))).
Proof.
  intros Hscene. destruct w as [sc gr am po ch hm wm]. cbn in Hscene. subst sc.
  unfold applyThemeToWorkspace, addGrid, guarded.
  destruct gr, am, po, hm, wm; cbn; eexists; (split; [reflexivity|]);
    cbn; repeat split; intros H; try reflexivity; now contradiction H.
Qed.

Lemma init_studio page_checked page_count :
  init (started page_checked page_count) = inr studio.
Proof. reflexivity. Qed.

(** X12. Applying a theme never recolours the grid: whatever theme is asked
    for, the grid that ends up in the scene is a new one with the two fixed
    greys 0x444444 and 0x222222, placed at minus half the current height;
    the palette's own grid colours only ever reach the grid that is thrown
    away. *)
Theorem theme_never_recolours_grid (theme : string) (this : session)
    (w : Workspace) (h : R) :
  scene w <> None ->
  gridHelper w <> None ->
  currentHeight this = VNum h ->
  exists w',
    applyThemeToWorkspace theme this w = inr w'
    /\ gridHelper w' = Some (mkGrid 100 20 0x444444 0x222222 (Num (- h / 2)) None).
Proof.
  intros Hscene Hgrid Hh.
  destruct (scene w) as [c|] eqn:Hc; [|contradiction].
  destruct (applyTheme_with_scene theme this w c Hc)
    as (w' & Hrun & _ & _ & Hg & _).
  exists w'. split; [exact Hrun|]. rewrite (Hg Hgrid), Hh. reflexivity.
Qed.

(** What [createHabitat] leaves in the workspace for a known shape. *)
Lemma createHabitat_scene_run (data_theme : option string) (this : session)
    (w : Workspace) :
  scene w <> None ->
  habitat_geometry this <> None ->
  exists w',
    createHabitat_scene data_theme this w = inr w'
    /\ habitatGroup w'
       = [Mesh (habitat_geometry this); LineSegments (habitat_geometry this)]
    /\ habitatMaterial w' = wireframeMaterial w'
    /\ (data_theme = Some "dark" ->
        habitatMaterial w' = Some (Some 0x00d4ff%Z))
    /\ (data_theme <> Some "dark" ->
        habitatMaterial w' = Some (Some 0x2563eb%Z)).
Proof.
  intros Hscene Hgeometry.
  destruct (scene w) as [c|] eqn:Hc; [|contradiction].
  unfold createHabitat_scene.
  destruct (habitat_geometry this) as [g|]; [|contradiction]. cbv zeta.
  destruct (applyTheme_with_scene (getCurrentTheme data_theme) this
              (set_habitat [Mesh (Some g); LineSegments (Some g)]
                 (Some (Some 0x00d4ff%Z)) (Some (Some 0x00d4ff%Z)) w) c Hc)
    as (w' & Hrun & _ & Hch & _ & _ & _ & Hm & Hw).
  exists w'. split; [exact Hrun|]. split; [exact Hch|].
  rewrite Hm, Hw by discriminate. split; [reflexivity|].
  destruct (choose_palette_current data_theme) as [-> _].
  unfold getCurrentTheme. split.
  - intros ->. reflexivity.
  - intros Hne. destruct data_theme as [attr|]; [|reflexivity].
    destruct (String.eqb_spec attr "dark") as [->|_];
      [now contradiction Hne|reflexivity].
Qed.

(** X13. For a known shape, [createHabitat] leaves exactly two children in
    the habitat group, the mesh and the wireframe of the new geometry,
    however often it has run before; both get the accent colour of the theme the page shows, which
    is the light one unless the attribute [data-theme] is exactly [dark]. *)
Theorem createHabitat_shell (data_theme : option string) (this : session)
    (w : Workspace) :
  scene w <> None ->
  habitat_geometry this <> None ->
  exists w',
    createHabitat_scene data_theme this w = inr w'
    /\ habitatGroup w'
       = [Mesh (habitat_geometry this); LineSegments (habitat_geometry this)]
    /\ habitatMaterial w' = wireframeMaterial w'
    /\ (data_theme = Some "dark" ->
        habitatMaterial w' = Some (Some 0x00d4ff%Z))
    /\ (data_theme <> Some "dark" ->
        habitatMaterial w' = Some (Some 0x2563eb%Z)).
Proof. apply createHabitat_scene_run. Qed.


(** ** The theme toggle *)

(** X15. After a click on the theme toggle, from any page: the attribute
    [data-theme] is [dark] or [light], the stored theme is the same, the
    button says Dark exactly for [dark], and the scene has the background
    of that theme's own palette. A second click brings [data-theme] to
    [dark] if it was [dark] at first and to [light] otherwise. *)
Theorem toggle_keeps_in_step (this : session) (pg : ThemePage)
    (w : Workspace) (label : string) :
  scene w <> None ->
  toggle_text pg = Some label ->
  exists w' p,
    toggle_click this pg w
    = (mkThemePage (Some (next_theme pg)) (Some (next_theme pg))
         (Some (if String.eqb (next_theme pg) "dark"
                then "🌙 Dark" else "☀️ Light")),
       inr w')
    /\ (next_theme pg = "dark" \/ next_theme pg = "light")
    /\ (next_theme pg = "light" <-> data_theme pg = Some "dark")
    /\ assoc (next_theme pg) palettes = Some p
    /\ scene w' = Some (Some (background p))
    /\ next_theme (fst (toggle_click this pg w))
       = getCurrentTheme (data_theme pg).
Proof.
  intros Hscene Hlabel.
  destruct (scene w) as [c|] eqn:Hc; [|contradiction].
  destruct (applyTheme_with_scene (next_theme pg) this w c Hc)
    as (w' & Hrun & Hbg & _).
  assert (next_theme pg = "dark" /\ data_theme pg <> Some "dark"
          \/ next_theme pg = "light" /\ data_theme pg = Some "dark") as Hnext.
  { unfold next_theme, getCurrentTheme.
    destruct (data_theme pg) as [attr|]; [|left; split; [reflexivity|discriminate]].
    destruct (String.eqb_spec attr "dark") as [->|Hne]; [now right|].
    left. split; [reflexivity|]. congruence. }
  exists w'.
  exists (if String.eqb (next_theme pg) "dark"
          then mkPalette 0x0b1220 0x444444 0x222222 0x00d4ff 0.45 0x00d4ff
          else mkPalette 0xe9eef7 0xbcc7dd 0xd6deee 0x2563eb 0.6 0x22d3ee).
  split.
  { unfold toggle_click, setToggleLabel, on_themechange.
    cbn [toggle_text]. rewrite Hlabel. cbn [data_theme shd_theme].
    replace (if String.eqb (next_theme pg) ""
             then getCurrentTheme (Some (next_theme pg)) else next_theme pg)
      with (next_theme pg)
      by (destruct Hnext as [[-> _]|[-> _]]; reflexivity).
    now rewrite Hrun. }
  split; [destruct Hnext as [[-> _]|[-> _]]; auto|].
  split.
  { destruct Hnext as [[Hn Hd]|[Hn Hd]]; rewrite Hn; split;
      try discriminate; try contradiction; auto. }
  split; [destruct Hnext as [[-> _]|[-> _]]; reflexivity|].
  split.
  { rewrite Hbg. destruct Hnext as [[-> _]|[-> _]]; reflexivity. }
  unfold toggle_click, setToggleLabel. cbn [toggle_text fst]. rewrite Hlabel.
  cbn [fst]. unfold next_theme at 1. cbn [data_theme].
  destruct Hnext as [[Hn Hd]|[Hn Hd]]; rewrite Hn; cbn.
  - unfold getCurrentTheme. destruct (data_theme pg) as [attr|]; [|reflexivity].
    destruct (String.eqb_spec attr "dark") as [->|_];
      [now contradiction Hd|reflexivity].
  - now rewrite Hd.
Qed.

(** ** Views and shortcuts *)

Lemma setView_known viewType c1 c2 :
  known_view viewType = true -> setView viewType c1 = setView viewType c2.
Proof.
  unfold known_view, setView. cbn [existsb].
  destruct (String.eqb viewType "top"); [reflexivity|].
  destruct (String.eqb viewType "side"); [reflexivity|].
  destruct (String.eqb viewType "front"); [reflexivity|].
  destruct (String.eqb viewType "reset"); [reflexivity|discriminate].
Qed.

Lemma setView_unknown viewType c :
  known_view viewType = false -> setView viewType c = c.
Proof.
  unfold known_view, setView. cbn [existsb].
  destruct (String.eqb viewType "top"); [discriminate|].
  destruct (String.eqb viewType "side"); [discriminate|].
  destruct (String.eqb viewType "front"); [discriminate|].
  destruct (String.eqb viewType "reset"); [discriminate|reflexivity].
Qed.

(** X16. In any run of view requests the camera ends where the last
    recognised one (top, side, front, reset) puts it, turned to the origin,
    wherever it was before; requests of any other name change nothing. The
    three axis views are 50 away from the origin. *)
Theorem setView_last_wins (before after : list string) (viewType : string)
    (camera : Camera) :
  known_view viewType = true ->
  forallb (fun v => negb (known_view v)) after = true ->
  fold_left (fun c v => setView v c) (before ++ viewType :: after) camera
  = setView viewType camera
  /\ camera_lookAt (setView viewType camera) = Some (0, 0, 0)
  /\ (viewType <> "reset" ->
      let '(x, y, z) := camera_position (setView viewType camera) in
      x * x + y * y + z * z = 50 * 50).
Proof.
  intros Hknown Hafter. split; [|split].
  - rewrite fold_left_app. cbn [fold_left].
    rewrite (setView_known viewType _ camera Hknown).
    induction after as [|v after IH]; [reflexivity|].
    cbn [forallb] in Hafter. apply andb_prop in Hafter as [Hv Hafter].
    cbn [fold_left]. rewrite setView_unknown by now apply negb_true_iff.
    now apply IH.
  - revert Hknown. unfold known_view, setView. cbn [existsb].
    destruct (String.eqb viewType "top"); [reflexivity|].
    destruct (String.eqb viewType "side"); [reflexivity|].
    destruct (String.eqb viewType "front"); [reflexivity|].
    destruct (String.eqb viewType "reset"); [reflexivity|discriminate].
  - revert Hknown. unfold known_view, setView. cbn [existsb].
    destruct (String.eqb viewType "top"); [intros; cbn; ring|].
    destruct (String.eqb viewType "side"); [intros; cbn; ring|].
    destruct (String.eqb viewType "front"); [intros; cbn; ring|].
    destruct (String.eqb_spec viewType "reset"); [now intros|discriminate].
Qed.

(** X17. The keyboard shortcuts and the tooltips agree: a key pressed with
    Ctrl clicks a button exactly when that button's tooltip announces Ctrl
    with the upper-case form of the key, and every announced shortcut has
    such a key. Without Ctrl no key clicks anything. *)
Theorem shortcuts_match_tooltips :
  (forall key id,
     keydown key true = Some id ->
     assoc id shortcuts = Some ("Ctrl+" ++ upper key))
  /\ (forall id combo,
        assoc id shortcuts = Some combo ->
        exists key, keydown key true = Some id /\ combo = "Ctrl+" ++ upper key)
  /\ (forall key, keydown key false = None).
Proof.
  split; [|split].
  - intros key id. unfold keydown.
    destruct (String.eqb_spec key "a") as [->|_]; [now intros [= <-]|].
    destruct (String.eqb_spec key "c") as [->|_]; [now intros [= <-]|].
    destruct (String.eqb_spec key "s") as [->|_]; [now intros [= <-]|].
    destruct (String.eqb_spec key "l") as [->|_]; [now intros [= <-]|].
    discriminate.
  - intros id combo. unfold shortcuts. cbn [assoc].
    destruct (String.eqb_spec "auto-layout" id) as [<-|_];
      [intros [= <-]; now exists "a"|].
    destruct (String.eqb_spec "clear-layout" id) as [<-|_];
      [intros [= <-]; now exists "c"|].
    destruct (String.eqb_spec "save-layout" id) as [<-|_];
      [intros [= <-]; now exists "s"|].
    destruct (String.eqb_spec "load-layout" id) as [<-|_];
      [intros [= <-]; now exists "l"|].
    discriminate.
  - intros key. unfold keydown.
    destruct (String.eqb key "a"); [reflexivity|].
    destruct (String.eqb key "c"); [reflexivity|].
    destruct (String.eqb key "s"); [reflexivity|].
    now destruct (String.eqb key "l").
Qed.

(** ** Colours of the markers *)

(** X18. Every marker a layout places has a colour in the table of
    [createSystem], and markers of different kinds have different colours. *)
Theorem markers_have_own_colours (s : session) :
  exists s',
    autoLayout s = Returned tt s'
    /\ (forall p, In p (systems s') ->
        exists colour, assoc (kind p) systemColors = Some colour)
    /\ (forall p q, In p (systems s') -> In q (systems s') ->
        assoc (kind p) systemColors = assoc (kind q) systemColors ->
        kind p = kind q).
Proof.
  exists (autoLayout_result s). split; [apply autoLayout_run|].
  assert (forall p, In p (systems (autoLayout_result s)) ->
                    In (kind p) systemIds) as Hknown.
  { intros p Hp. apply (in_map kind) in Hp.
    rewrite autoLayout_systems, placements_kinds in Hp.
    unfold enabled in Hp. now apply filter_In in Hp as [Hp _]. }
  assert (forall a b, In a systemIds -> In b systemIds ->
                      assoc a systemColors = assoc b systemColors -> a = b)
    as Hinj.
  { intros a b Ha Hb. unfold systemIds in Ha, Hb. cbn [In] in Ha, Hb.
    repeat (destruct Ha as [<-|Ha]; [|]);
      try contradiction;
      repeat (destruct Hb as [<-|Hb]; [|]);
      try contradiction; cbn; intros H; try reflexivity; discriminate H. }
  split.
  - intros p Hp. specialize (Hknown p Hp).
    unfold systemIds in Hknown. cbn [In] in Hknown.
    repeat (destruct Hknown as [<-|Hknown]; [eexists; reflexivity|]).
    contradiction.
  - intros p q Hp Hq. apply Hinj; now apply Hknown.
Qed.

(** X19. When the page has loaded and the designer has built its shell, the
    toggle button and the shell agree, whatever theme was saved: the button
    says Dark and the shell has the dark accent, or the button says Light
    and the shell has the light accent. With nothing saved the theme is the
    one the system prefers. *)
Theorem page_load_theme_agrees (prefersDark : bool) (pg : ThemePage)
    (label : string) (this : session) (w : Workspace) :
  scene w <> None ->
  habitat_geometry this <> None ->
  toggle_text pg = Some label ->
  exists w',
    createHabitat_scene (data_theme (bootstrap_theme prefersDark pg)) this w
    = inr w'
    /\ (toggle_text (bootstrap_theme prefersDark pg) = Some "🌙 Dark"
        /\ habitatMaterial w' = Some (Some 0x00d4ff%Z)
        \/ toggle_text (bootstrap_theme prefersDark pg) = Some "☀️ Light"
           /\ habitatMaterial w' = Some (Some 0x2563eb%Z))
    /\ (shd_theme pg = None ->
        data_theme (bootstrap_theme prefersDark pg)
        = Some (if prefersDark then "dark" else "light")).
Proof.
  intros Hscene Hshape Hlabel.
  destruct (createHabitat_scene_run
              (data_theme (bootstrap_theme prefersDark pg))
              this w Hscene Hshape) as (w' & Hrun & _ & _ & Hdark & Hlight).
  exists w'. split; [exact Hrun|].
  unfold bootstrap_theme, setToggleLabel in *.
  cbn [toggle_text data_theme] in *. rewrite Hlabel in *.
  cbn [toggle_text data_theme] in *.
  set (initialTheme :=
         match shd_theme pg with
         | Some saved =>
             if String.eqb saved ""
             then if prefersDark then "dark" else "light"
             else saved
         | None => if prefersDark then "dark" else "light"
         end) in *.
  split.
  - destruct (String.eqb_spec initialTheme "dark") as [E|E].
    + left. split; [reflexivity|]. apply Hdark. now rewrite E.
    + right. split; [reflexivity|]. apply Hlight. congruence.
  - intros Hnone. unfold initialTheme. now rewrite Hnone.
Qed.

End Designer.

Lemma quarter_range k : 0 <= quarter k < 1.
Proof. unfold quarter. lra. Qed.

(** C1 at the designer as it starts (cylinder, radius 10, height 15) with
    two systems enabled: two markers, the second one [medical], at distance
    0.8 * 10 from the axis. *)
Lemma autoLayout_circle_witness :
  exists s',
    autoLayout quarter no_coercion (started no_coercion power_medical 0)
    = Returned tt s'
    /\ List.length (systems s') = 2%nat
    /\ exists p x z,
         nth_error (systems s') 1 = Some p
         /\ kind p = "medical"
         /\ vx (position p) = Num x
         /\ vz (position p) = Num z
         /\ sqrt (x * x + z * z) = 0.8 * 10.
Proof.
  destruct (autoLayout_circle quarter no_coercion
              (started no_coercion power_medical 0) 10 15
              eq_refl eq_refl quarter_range)
    as (s' & Hrun & Hlen & Hall).
  - discriminate.
  - exists s'. split; [exact Hrun|]. split; [exact Hlen|].
    destruct (Hall 1%nat (Nat.lt_succ_diag_r 1))
      as (p & systemType & U & x & y & z & Hk & Hp & Hkind & Hx & _ & Hz
          & _ & _ & _ & _ & _ & _ & Hdist).
    injection Hk as <-.
    exists p, x, z. split; [exact Hp|]. split; [exact Hkind|].
    split; [exact Hx|]. split; [exact Hz|]. apply Hdist. lra.
Defined.

(** C3 at the cylinder of radius 10 and height 15. *)
Lemma crewCapacity_floor_witness :
  exists s',
    updateHabitatInfo no_coercion (page power_medical 0) = Returned tt s'
    /\ crew_display s' = Some 235%Z
    /\ volume_display s' = Some 4712%Z
    /\ surface_display s' = Some 1571%Z.
Proof.
  destruct (crewCapacity_floor no_coercion (page power_medical 0) Cylinder
              10 15 eq_refl eq_refl eq_refl)
    as (volume & surfaceArea & s' & _ & Hrun & _ & _ & _ & Hshown).
  exists s'. split; [exact Hrun|]. exact (Hshown eq_refl eq_refl eq_refl).
Defined.

(** C4 at the sphere session, loaded into a designer that has just
    started with nothing checked. *)
Lemma save_load_roundtrip_witness :
  exists file s2,
    saveLayout "2024-01-01T00:00:00.000Z" (sphere_session no_coercion)
    = Returned file (sphere_session no_coercion)
    /\ loadLayout quarter no_coercion file (started no_coercion none_checked 0)
       = Returned tt s2
    /\ currentShape s2 = VStr "sphere"
    /\ currentRadius s2 = VNum 12
    /\ currentHeight s2 = VNum 5
    /\ enabled s2 = ["power"; "medical"].
Proof.
  destruct (save_load_roundtrip quarter no_coercion (sphere_session no_coercion)
              (started no_coercion none_checked 0) Sphere 12 5
              "2024-01-01T00:00:00.000Z" eq_refl eq_refl eq_refl)
    as (file & s2 & Hsave & Hload & Hs & Hr & Hh & Hen & _).
  exists file, s2. repeat (split; [assumption|]). exact Hen.
Defined.


(** C8 at a designer with nothing checked. *)
Lemma autoLayout_total_witness :
  exists s',
    autoLayout quarter no_coercion (started no_coercion none_checked 0)
    = Returned tt s'
    /\ systems s' = [].
Proof.
  destruct (autoLayout_total quarter no_coercion
              (started no_coercion none_checked 0)) as (s' & Hrun & Hempty).
  exists s'. split; [exact Hrun|]. exact (proj1 (Hempty eq_refl)).
Defined.

(** C9 at a document that lists a known system, an unknown one and a
    number. *)
Lemma load_ignores_unknown_systems_witness :
  exists s',
    loadLayout quarter no_coercion
      (JsonText (VObj [ ("shape", VStr "cube"); ("radius", VNum 8);
                        ("height", VNum 6);
                        ("systems", VArr [VStr "power"; VStr "warp-drive";
                                          VNum 3]) ]))
      (started no_coercion none_checked 0)
    = Returned tt s'
    /\ alerts s' = []
    /\ In "power" (enabled s')
    /\ ~ In "warp-drive" (enabled s').
Proof.
  destruct (load_ignores_unknown_systems quarter no_coercion
              [ ("shape", VStr "cube"); ("radius", VNum 8); ("height", VNum 6);
                ("systems", VArr [VStr "power"; VStr "warp-drive"; VNum 3]) ]
              [VStr "power"; VStr "warp-drive"; VNum 3]
              Cube (started no_coercion none_checked 0)
              eq_refl eq_refl eq_refl eq_refl)
    as (s' & Hrun & Hal & Hen).
  exists s'. split; [exact Hrun|]. split; [exact Hal|]. split.
  - apply Hen. split; simpl; tauto.
  - intros [Hin _]%Hen. simpl in Hin.
    repeat (destruct Hin as [Hin|Hin]; [discriminate Hin|]). exact Hin.
Defined.

(** C10 at the designer as it starts, with two systems enabled. *)
Lemma autoLayout_vertical_bounds_witness :
  exists s',
    autoLayout quarter no_coercion (started no_coercion power_medical 0)
    = Returned tt s'
    /\ forall p, In p (systems s') ->
       exists y, vy (position p) = Num y /\ - 0.2 * 15 <= y < 0.2 * 15.
Proof.
  destruct (autoLayout_vertical_bounds quarter no_coercion
              (started no_coercion power_medical 0) 15 eq_refl)
    as (s' & Hrun & Hbounds).
  - lra.
  - exact quarter_range.
  - exists s'. split; [exact Hrun|].
    intros p Hp. destruct (Hbounds p Hp) as (y & Hy & Hin & _).
    exists y. split; [exact Hy|exact Hin].
Defined.

(** C5 as stated fails at a document that parses but has no [systems]: the
    load ends with the error message, yet shape, radius and height have
    already been overwritten. *)
Lemma load_missing_systems_counterexample :
  exists s',
    loadLayout quarter no_coercion
      (JsonText (VObj [ ("shape", VStr "sphere"); ("radius", VNum 12);
                        ("height", VNum 5) ]))
      (started no_coercion power_medical 0)
    = Returned tt s'
    /\ alerts s'
       = [ "Error loading layout file: Cannot read properties of undefined (reading 'includes')" ]
    /\ currentShape (started no_coercion power_medical 0) = VStr "cylinder"
    /\ currentShape s' = VStr "sphere"
    /\ currentRadius s' = VNum 12
    /\ currentHeight s' = VNum 5.
Proof.
  eexists. split; [reflexivity|]. repeat split.
Qed.

(** C6 as stated fails: a marker placed by one layout is gone after the
    next layout, with no call of the clear operation in between. Here
    [power] is laid out, then unticked, and the layout run again. *)
Lemma autoLayout_discards_markers :
  exists t u v,
    autoLayout quarter no_coercion (started no_coercion power_only 0)
    = Returned tt t
    /\ click "power" t = Returned tt u
    /\ map kind (systems u) = ["power"]
    /\ autoLayout quarter no_coercion u = Returned tt v
    /\ systems v = [].
Proof.
  do 3 eexists.
  split; [apply autoLayout_run|].
  split; [reflexivity|].
  split; [reflexivity|].
  split; [apply autoLayout_run|].
  reflexivity.
Qed.

(** The text made of the JSON string ["not json"], quotes included, parses:
    the load then overwrites shape, radius and height with [undefined]
    before it fails on the missing [systems]. *)
Lemma load_quoted_string :
  exists s',
    loadLayout quarter no_coercion (JsonText (VStr "not json"))
      (started no_coercion power_medical 0)
    = Returned tt s'
    /\ List.length (alerts s') = 1%nat
    /\ currentShape s' = VUndefined
    /\ currentRadius s' = VUndefined
    /\ currentHeight s' = VUndefined.
Proof.
  eexists. split; [reflexivity|]. repeat split.
Qed.

(** A document with a shape that is none of the four: the fields and the
    check boxes are set, then [createHabitat] throws, so the load ends with
    the error message and lays nothing out. *)
Lemma load_unknown_shape :
  exists s',
    loadLayout quarter no_coercion
      (JsonText (VObj [ ("shape", VStr "pyramid"); ("radius", VNum 8);
                        ("height", VNum 6);
                        ("systems", VArr [VStr "power"]) ]))
      (started no_coercion none_checked 0)
    = Returned tt s'
    /\ alerts s'
       = [ "Error loading layout file: Cannot read properties of undefined (reading 'isGeometry')" ]
    /\ currentShape s' = VStr "pyramid"
    /\ enabled s' = ["power"]
    /\ systems s' = [].
Proof.
  eexists. split.
  - apply loadLayout_caught.
    rewrite loadLayoutData_assigns by (discriminate || reflexivity).
    unfold forEach.
    erewrite bind_run;
      [|apply forEach_check_tested; [discriminate|discriminate|reflexivity]].
    apply bind_thrown. apply createHabitat_throws. reflexivity.
  - split; [reflexivity|]. split; [reflexivity|]. split; reflexivity.
Qed.

(** A document whose radius is an object with a [toString] of its own: the
    assignment to the slider throws, and nothing of the session changes but
    the message. *)
Lemma load_unconvertible_radius :
  loadLayout quarter no_coercion
    (JsonText (VObj [ ("shape", VStr "cube");
                      ("radius", VObj [("toString", VNum 1)]);
                      ("height", VNum 6);
                      ("systems", VArr [VStr "power"]) ]))
    (started no_coercion none_checked 0)
  = Returned tt
      (set_alerts
         [ "Error loading layout file: Cannot convert object to primitive value" ]
         (started no_coercion none_checked 0)).
Proof. reflexivity. Qed.

(** ** Two runtimes *)

Lemma placements_plan rnd1 rnd2 radius height1 height2 step l index d1 d2 :
  map (fun p => (kind p, vx (position p), vz (position p)))
    (placements rnd1 radius height1 step l index d1)
  = map (fun p => (kind p, vx (position p), vz (position p)))
      (placements rnd2 radius height2 step l index d2).
Proof.
  revert index d1 d2; induction l as [|k l IH]; intros index d1 d2.
  - reflexivity.
  - cbn [placements map]. f_equal. apply IH.
Qed.

(** X8. Where a marker stands in the x-z plane depends only on the radius
    and on the boxes that are checked: two layouts under different random
    draws, from sessions that agree on these two, give markers of the same
    kinds at the same x and z, whatever the heights, shapes and earlier
    markers. *)
Theorem autoLayout_plan_is_deterministic (rnd1 rnd2 : nat -> R)
    (coerce : value -> number) (s1 s2 : session) :
  currentRadius s1 = currentRadius s2 ->
  (forall id, In id systemIds -> checkboxes s1 id = checkboxes s2 id) ->
  exists t1 t2,
    autoLayout rnd1 coerce s1 = Returned tt t1
    /\ autoLayout rnd2 coerce s2 = Returned tt t2
    /\ map (fun p => (kind p, vx (position p), vz (position p))) (systems t1)
       = map (fun p => (kind p, vx (position p), vz (position p))) (systems t2).
Proof.
  intros Hr Hc.
  exists (autoLayout_result rnd1 coerce s1), (autoLayout_result rnd2 coerce s2).
  split; [apply autoLayout_run|]. split; [apply autoLayout_run|].
  rewrite !autoLayout_systems.
  assert (enabled s1 = enabled s2) as -> by (now apply filter_ext_in).
  rewrite Hr. apply placements_plan.
Qed.

(** ** The added properties at concrete inputs *)

(** X1 at a text that is not JSON, at a document with two systems, and at
    a document whose radius the form control cannot take. *)
Lemma loadLayout_outcome_witness :
  (exists s',
     loadLayout quarter no_coercion (OtherText "not json")
       (started no_coercion power_medical 0) = Returned tt s'
     /\ checkboxes s' = power_medical)
  /\ (exists s',
        loadLayout quarter no_coercion
          (JsonText (VObj [ ("shape", VStr "torus");
                            ("systems", VArr [VStr "food"]) ]))
          (started no_coercion power_medical 0) = Returned tt s'
        /\ alerts s' = [])
  /\ (exists s',
        loadLayout quarter no_coercion
          (JsonText (VObj [ ("shape", VStr "cube");
                            ("radius", VObj [("toString", VNum 1)]);
                            ("systems", VArr [VStr "food"]) ]))
          (started no_coercion power_medical 0) = Returned tt s'
        /\ checkboxes s' = power_medical).
Proof.
  split; [|split].
  - destruct (loadLayout_outcome quarter no_coercion (OtherText "not json")
                (started no_coercion power_medical 0))
      as (s' & Hrun & _ & _ & Hfail).
    exists s'. split; [exact Hrun|]. apply Hfail.
    intros layout H. discriminate H.
  - destruct (loadLayout_outcome quarter no_coercion
                (JsonText (VObj [ ("shape", VStr "torus");
                                  ("systems", VArr [VStr "food"]) ]))
                (started no_coercion power_medical 0))
      as (s' & Hrun & Hok & _).
    exists s'. split; [exact Hrun|]. apply Hok.
    eexists. exists Torus. repeat split; reflexivity.
  - destruct (loadLayout_outcome quarter no_coercion
                (JsonText (VObj [ ("shape", VStr "cube");
                                  ("radius", VObj [("toString", VNum 1)]);
                                  ("systems", VArr [VStr "food"]) ]))
                (started no_coercion power_medical 0))
      as (s' & Hrun & _ & _ & Hfail).
    exists s'. split; [exact Hrun|]. apply Hfail.
    intros layout H. injection H as <-. right. reflexivity.
Defined.


(** X3 at a document whose [systems] is the string ["powerful"]. *)
Lemma load_systems_string_witness :
  exists s',
    loadLayout quarter no_coercion
      (JsonText (VObj [("shape", VStr "cube"); ("systems", VStr "powerful")]))
      (started no_coercion none_checked 0) = Returned tt s'
    /\ In "power" (enabled s').
Proof.
  destruct (load_systems_string quarter no_coercion
              [("shape", VStr "cube"); ("systems", VStr "powerful")]
              "powerful" Cube
              (started no_coercion none_checked 0)
              eq_refl eq_refl eq_refl eq_refl)
    as (s' & Hrun & _ & Hen).
  exists s'. split; [exact Hrun|]. apply Hen. split.
  - simpl. tauto.
  - now exists "", "ful".
Defined.

(** X4 at a document that lists [medical] twice, an unknown system and
    [power]. *)
Lemma save_after_load_witness :
  exists s',
    loadLayout quarter no_coercion
      (JsonText (VObj [ ("shape", VStr "cube");
                        ("systems", VArr [VStr "medical"; VStr "warp";
                                          VStr "medical"; VStr "power"]) ]))
      (started no_coercion none_checked 0) = Returned tt s'
    /\ saveLayout "now" s'
       = Returned
           (JsonText (VObj [ ("shape", VStr "cube");
                             ("systems", VArr [VStr "power"; VStr "medical"]);
                             ("timestamp", VStr "now") ]))
           s'.
Proof.
  destruct (save_after_load quarter no_coercion
              [ ("shape", VStr "cube");
                ("systems", VArr [VStr "medical"; VStr "warp";
                                  VStr "medical"; VStr "power"]) ]
              [VStr "medical"; VStr "warp"; VStr "medical"; VStr "power"]
              "now" (started no_coercion none_checked 0) eq_refl eq_refl)
    as (s' & Hrun & Hsave).
  exists s'. split; [exact Hrun|]. exact Hsave.
Defined.

(** X5 at a designer that has just started, through a layout, a file with
    a shape that is none of the four, a move of the radius slider (whose
    listener then throws) and a click. *)
Lemma listeners_keep_markers_consistent_witness :
  consistent
    (snd (dispatch_all quarter no_coercion
            [ AutoLayoutClick;
              LoadLayoutFile
                (JsonText (VObj [ ("shape", VStr "pyramid");
                                  ("systems", VArr [VStr "food"]) ]));
              RadiusInput 12; CheckboxChange "food" ]
            (started no_coercion power_medical 0))).
Proof.
  apply (listeners_keep_markers_consistent quarter no_coercion
           [ AutoLayoutClick;
             LoadLayoutFile
               (JsonText (VObj [ ("shape", VStr "pyramid");
                                 ("systems", VArr [VStr "food"]) ]));
             RadiusInput 12; CheckboxChange "food" ]
           (started no_coercion power_medical 0)).
  split; [reflexivity|]. split; [constructor|intros ? []].
Defined.

(** After that file the shape is none of the four, and the move of the
    slider is reported on the console. *)
Lemma slider_throws_after_unknown_shape :
  fst (dispatch_all quarter no_coercion
         [ LoadLayoutFile
             (JsonText (VObj [ ("shape", VStr "pyramid");
                               ("systems", VArr [VStr "food"]) ]));
           RadiusInput 12 ]
         (started no_coercion power_medical 0))
  = [ TypeError "Cannot read properties of undefined (reading 'isGeometry')" ].
Proof. reflexivity. Qed.

Lemma resized_and_laid_out :
  dispatch_all quarter no_coercion [RadiusInput 12; AutoLayoutClick]
    (started no_coercion power_medical 0)
  = ([],
     autoLayout_result quarter no_coercion
       (updateHabitatInfo_result no_coercion
          (set_currentRadius (VNum 12)
             (started no_coercion power_medical 0)))).
Proof.
  assert (dispatch quarter no_coercion (RadiusInput 12)
            (started no_coercion power_medical 0)
          = ([], updateHabitatInfo_result no_coercion
                   (set_currentRadius (VNum 12)
                      (started no_coercion power_medical 0)))) as H1.
  { unfold dispatch. cbn [listener]. unfold on_radius_input.
    now rewrite (changed_run no_coercion (set_currentRadius (VNum 12))
                   (started no_coercion power_medical 0) eq_refl). }
  rewrite (dispatch_all_cons _ _ _ _ _ _ _ H1).
  assert (dispatch quarter no_coercion AutoLayoutClick
            (updateHabitatInfo_result no_coercion
               (set_currentRadius (VNum 12)
                  (started no_coercion power_medical 0)))
          = ([], autoLayout_result quarter no_coercion
                   (updateHabitatInfo_result no_coercion
                      (set_currentRadius (VNum 12)
                         (started no_coercion power_medical 0))))) as H2.
  { unfold dispatch. cbn [listener]. now rewrite autoLayout_run. }
  rewrite (dispatch_all_cons _ _ _ _ _ _ _ H2).
  reflexivity.
Qed.

(** X6 at a designer that has just started, through a new radius and a
    layout. *)
Lemma listeners_keep_readouts_witness :
  fst (dispatch_all quarter no_coercion [RadiusInput 12; AutoLayoutClick]
         (started no_coercion power_medical 0)) = []
  /\ in_step no_coercion
       (snd (dispatch_all quarter no_coercion [RadiusInput 12; AutoLayoutClick]
               (started no_coercion power_medical 0)))
  /\ has_case
       (currentShape
          (snd (dispatch_all quarter no_coercion
                  [RadiusInput 12; AutoLayoutClick]
                  (started no_coercion power_medical 0)))) = true.
Proof.
  apply (listeners_keep_readouts quarter no_coercion
           [RadiusInput 12; AutoLayoutClick]
           (started no_coercion power_medical 0)).
  - exact (in_step_updated no_coercion _).
  - reflexivity.
  - exact (eq_trans
             (f_equal (fun p => alerts (snd p)) resized_and_laid_out)
             (proj2 (proj2 (proj2 (proj2
                (autoLayout_frame quarter no_coercion
                   (updateHabitatInfo_result no_coercion
                      (set_currentRadius (VNum 12)
                         (started no_coercion power_medical 0))))))))).
Defined.

(** X7 at the designer as it starts, with two systems enabled. *)
Lemma markers_do_not_overlap_witness :
  exists s',
    autoLayout quarter no_coercion (started no_coercion power_medical 0)
    = Returned tt s'
    /\ forall p q,
         nth_error (systems s') 0 = Some p ->
         nth_error (systems s') 1 = Some q ->
         (vx (position p), vz (position p))
         <> (vx (position q), vz (position q)).
Proof.
  destruct (markers_do_not_overlap quarter no_coercion
              (started no_coercion power_medical 0) 10 eq_refl)
    as (s' & Hrun & Hapart).
  - lra.
  - exists s'. split; [exact Hrun|].
    intros p q. apply Hapart. discriminate.
Defined.

(** X8 at two designers that differ in height, earlier draws and
    runtime. *)
Lemma autoLayout_plan_is_deterministic_witness :
  exists t1 t2,
    autoLayout quarter no_coercion (started no_coercion power_medical 0)
    = Returned tt t1
    /\ autoLayout (fun _ => / 2) no_coercion
         (set_draws 7
            (set_currentHeight (VNum 40) (started no_coercion power_medical 0)))
       = Returned tt t2
    /\ map kind (systems t1) = map kind (systems t2).
Proof.
  destruct (autoLayout_plan_is_deterministic quarter (fun _ => / 2) no_coercion
              (started no_coercion power_medical 0)
              (set_draws 7
                 (set_currentHeight (VNum 40)
                    (started no_coercion power_medical 0)))
              eq_refl (fun _ _ => eq_refl))
    as (t1 & t2 & H1 & H2 & Hsame).
  exists t1, t2. split; [exact H1|]. split; [exact H2|].
  apply (f_equal (map (fun t : string * number * number => fst (fst t))))
    in Hsame.
  rewrite !map_map in Hsame. exact Hsame.
Defined.


(** X11 at the cylinder, from radius 10 and height 15 to radius 12 and
    height 15. *)
Lemma crew_capacity_monotone_witness :
  exists t1 t2 crew1 crew2,
    updateHabitatInfo no_coercion (started no_coercion power_medical 0)
    = Returned tt t1
    /\ updateHabitatInfo no_coercion
         (set_currentRadius (VNum 12) (started no_coercion power_medical 0))
       = Returned tt t2
    /\ crew_display t1 = Some crew1
    /\ crew_display t2 = Some crew2
    /\ (0 <= crew1 <= crew2)%Z.
Proof.
  apply (crew_capacity_monotone no_coercion Cylinder
           (started no_coercion power_medical 0)
           (set_currentRadius (VNum 12) (started no_coercion power_medical 0))
           10 12 15 15 eq_refl eq_refl eq_refl eq_refl eq_refl eq_refl);
    lra.
Defined.

(** X12 at the light theme, on the workspace [init] leaves. *)
Lemma theme_never_recolours_grid_witness :
  exists w',
    applyThemeToWorkspace no_coercion "light"
      (started no_coercion power_medical 0) studio = inr w'
    /\ gridHelper w'
       = Some (mkGrid 100 20 0x444444 0x222222 (Num (- 15 / 2)) None).
Proof.
  apply (theme_never_recolours_grid no_coercion "light"
           (started no_coercion power_medical 0) studio 15);
    [discriminate|discriminate|reflexivity].
Defined.

(** X13 on a page in the light theme. *)
Lemma createHabitat_shell_witness :
  exists w',
    createHabitat_scene no_coercion (Some "light")
      (started no_coercion power_medical 0) studio = inr w'
    /\ List.length (habitatGroup w') = 2%nat
    /\ habitatMaterial w' = Some (Some 0x2563eb%Z).
Proof.
  destruct (createHabitat_shell no_coercion (Some "light")
              (started no_coercion power_medical 0) studio)
    as (w' & Hrun & Hch & _ & _ & Hlight).
  - discriminate.
  - discriminate.
  - exists w'. split; [exact Hrun|]. split.
    + now rewrite Hch.
    + apply Hlight. discriminate.
Defined.


(** X15 on a page whose saved theme is neither [dark] nor [light]. *)
Lemma toggle_keeps_in_step_witness :
  exists w',
    toggle_click no_coercion (started no_coercion power_medical 0)
      (mkThemePage (Some "blue") (Some "blue") (Some "☀️ Light")) studio
    = (mkThemePage (Some "dark") (Some "dark") (Some "🌙 Dark"), inr w')
    /\ scene w' = Some (Some 0x0b1220%Z).
Proof.
  destruct (toggle_keeps_in_step no_coercion
              (started no_coercion power_medical 0)
              (mkThemePage (Some "blue") (Some "blue") (Some "☀️ Light"))
              studio "☀️ Light")
    as (w' & p & Hrun & _ & _ & Hp & Hbg & _).
  - discriminate.
  - reflexivity.
  - exists w'. split; [exact Hrun|].
    injection Hp as <-. exact Hbg.
Defined.

(** X16 at a run of four requests, the last one of no known name. *)
Lemma setView_last_wins_witness :
  fold_left (fun c v => setView v c) ["top"; "reset"; "side"; "back"]
    (mkCamera (1, 2, 3) None)
  = mkCamera (50, 0, 0) (Some (0, 0, 0)).
Proof.
  exact (proj1 (setView_last_wins ["top"; "reset"] ["back"] "side"
                  (mkCamera (1, 2, 3) None) eq_refl eq_refl)).
Defined.

(** X19 on a page with nothing saved, on a system that prefers dark. *)
Lemma page_load_theme_agrees_witness :
  exists w',
    createHabitat_scene no_coercion
      (data_theme (bootstrap_theme true (mkThemePage None None (Some ""))))
      (started no_coercion power_medical 0) studio = inr w'
    /\ habitatMaterial w' = Some (Some 0x00d4ff%Z).
Proof.
  destruct (page_load_theme_agrees no_coercion true
              (mkThemePage None None (Some "")) ""
              (started no_coercion power_medical 0) studio)
    as (w' & Hrun & [[_ Hm]|[Hl _]] & _).
  - discriminate.
  - discriminate.
  - reflexivity.
  - exists w'. split; [exact Hrun|exact Hm].
  - discriminate Hl.
Defined.
